(** * geojson-viewer: a shallow embedding of the callback layer

    The development follows the package layout:
    - [Py]      the few Python notions the code relies on (exceptions,
                [str.split], dictionaries of grid rows);
    - [Pandas]  data frames as the code uses them (ordered, named columns);
    - [Plotly]  figures and the Dash components the callbacks return;
    - [Library] what the program delegates to the string methods of Python,
                to geopandas, pandas, plotly, json, urllib, pathlib, base64,
                tempfile and the clock: one record of primitives, over which
                every definition is parametric;
    - [Frames]  the frame constructors and accessors the callbacks call;
    - [Utils]   [utils.py]: the document holder [GeoJsonFile], the loader
                [load_geojson] and the upload decoder [read_upload_content];
    - [Server]  [server.py]: [_clear_fig] and the three callbacks
                [create_columns], [display_choropleth] and [save_data];
    - [Sample]  one concrete library, on which the callbacks can be run.

    The statements C1 to C10 follow, each with the lemmas it needs. *)

From Stdlib Require Import ZArith QArith String Ascii List DecimalString.
From stdpp Require Import base option list strings gmap.

Open Scope string_scope.

(* ===================================================================== *)
(** ** Python basics *)
(* ===================================================================== *)

Module Py.

(** Exceptions the embedded code can see.  [LibraryError] stands for
    whatever a delegated call raises (I/O errors, parse errors, cast
    errors, ...); all of them derive from [Exception]. *)
Inductive exn :=
| KeyError (key : string)
| ValueError (msg : string)
| PreventUpdate
| LibraryError (msg : string).

Inductive result (A : Type) :=
| Ok (a : A)
| Raise (e : exn).
Arguments Ok {A} a.
Arguments Raise {A} e.

Definition rbind {A B} (r : result A) (k : A -> result B) : result B :=
  match r with
  | Ok a => k a
  | Raise e => Raise e
  end.

Fixpoint rmapM {A B} (f : A -> result B) (l : list A) : result (list B) :=
  match l with
  | [] => Ok []
  | a :: l' => rbind (f a) (fun b => rbind (rmapM f l') (fun bs => Ok (b :: bs)))
  end.

(** [o == s] for an optional string [o]. *)
Definition eq_str (o : option string) (s : string) : bool :=
  match o with
  | Some t => String.eqb t s
  | None => false
  end.

(** Truthiness of a string: [not s] holds for the empty string only. *)
Definition truthy (s : string) : bool :=
  match s with
  | EmptyString => false
  | String _ _ => true
  end.

(** [o or ""] for an optional string. *)
Definition or_empty (o : option string) : string :=
  match o with
  | Some s => s
  | None => ""
  end.

(** [s.split(sep)] for a one-character separator: every occurrence of the
    separator cuts the string, so the result has one more piece than the
    string has separators. *)
Fixpoint split (sep : ascii) (s : string) : list string :=
  match s with
  | EmptyString => [EmptyString]
  | String c s' =>
      if Ascii.eqb c sep then EmptyString :: split sep s'
      else match split sep s' with
           | [] => [String c EmptyString]
           | piece :: pieces => String c piece :: pieces
           end
  end.

(** Number of occurrences of a character. *)
Fixpoint count (sep : ascii) (s : string) : nat :=
  match s with
  | EmptyString => 0
  | String c s' => (if Ascii.eqb c sep then 1 else 0) + count sep s'
  end.

(** The part of the string after the first occurrence of [sep], if any. *)
Fixpoint after_first (sep : ascii) (s : string) : option string :=
  match s with
  | EmptyString => None
  | String c s' => if Ascii.eqb c sep then Some s' else after_first sep s'
  end.

(** A dictionary with string keys whose insertion order matters (a grid
    row): an association list in which [set] keeps keys unique. *)
Definition dict (V : Type) := list (string * V).

Fixpoint get {V} (d : dict V) (k : string) : option V :=
  match d with
  | [] => None
  | (k', v) :: d' => if String.eqb k' k then Some v else get d' k
  end.

Fixpoint set {V} (d : dict V) (k : string) (v : V) : dict V :=
  match d with
  | [] => [(k, v)]
  | (k', v') :: d' =>
      if String.eqb k' k then (k', v) :: d' else (k', v') :: set d' k v
  end.

(** [dict(zip(keys, values))]. *)
Definition of_zip {V} (keys : list string) (values : list V) : dict V :=
  fold_left (fun d kv => set d (fst kv) (snd kv)) (combine keys values) [].

Definition keys {V} (d : dict V) : list string := map fst d.

End Py.
Export Py.

(* ===================================================================== *)
(** ** Data frames *)
(* ===================================================================== *)

Module Pandas.

(** A cell: what a GeoJSON property or a grid cell can hold, or a shape. *)
Inductive value :=
| VNone
| VBool (b : bool)
| VInt (z : Z)
| VFloat (q : Q)
| VStr (s : string)
| VGeom (wkt : string).

Inductive dtype := bool_ | int64 | float64 | object_ | geometry_.

Record Series := { dtype_of : dtype; values : list value }.

(** A frame: its rows are labelled [0 .. index - 1]; its columns are named
    and ordered.  The cells of a series are those of the labels 0, 1, 2,
    ... in turn. *)
Record DataFrame := { index : nat; cols : list (string * Series) }.

(** A geospatial frame: a frame, one of whose columns (named "geometry")
    holds the shapes, together with a coordinate reference system. *)
Record GeoDataFrame := { frame : DataFrame; crs : option string }.

(** [df.columns] *)
Definition columns (df : DataFrame) : list string := map fst (cols df).

Fixpoint find_col (cs : list (string * Series)) (c : string) : option Series :=
  match cs with
  | [] => None
  | (c', s) :: cs' => if String.eqb c' c then Some s else find_col cs' c
  end.

(** [df[c]] for a column name [c]. *)
Definition getitem (df : DataFrame) (c : string) : result Series :=
  match find_col (cols df) c with
  | Some s => Ok s
  | None => Raise (KeyError c)
  end.

(** [df[[c1, ..., cn]]]: the named columns, in the order asked for, on the
    same rows. *)
Definition getitems (df : DataFrame) (cs : list string) : result DataFrame :=
  rbind (rmapM (fun c => rbind (getitem df c) (fun s => Ok (c, s))) cs)
        (fun selected => Ok {| index := index df; cols := selected |}).

(** [df[c] = s]: the series becomes the column named [c], in place of the
    column of that name when there is one, as a new last column otherwise. *)
Fixpoint set_col (cs : list (string * Series)) (c : string) (s : Series)
  : list (string * Series) :=
  match cs with
  | [] => [(c, s)]
  | (c', s') :: cs' =>
      if String.eqb c' c then (c', s) :: cs' else (c', s') :: set_col cs' c s
  end.

Definition setitem (df : DataFrame) (c : string) (s : Series) : DataFrame :=
  {| index := index df; cols := set_col (cols df) c s |}.

(** Column names of a list of row dictionaries, in order of first
    appearance. *)
Fixpoint first_seen (seen : list string) (ks : list string) : list string :=
  match ks with
  | [] => []
  | k :: ks' =>
      if bool_decide (k ∈ seen) then first_seen seen ks'
      else k :: first_seen (k :: seen) ks'
  end.

Definition record_keys (records : list (dict value)) : list string :=
  first_seen [] (concat (map keys records)).

End Pandas.
Export Pandas.

(* ===================================================================== *)
(** ** Figures and components *)
(* ===================================================================== *)

Module Plotly.

(** A JSON value, as [json.loads] returns it. *)
#[warnings="-register-all"]
Inductive Json :=
| JNull
| JBool (b : bool)
| JNumber (q : Q)
| JString (s : string)
| JArray (items : list Json)
| JObject (members : list (string * Json)).

Record Annotation := {
  a_x : Q; a_y : Q; a_xref : string; a_yref : string;
  a_text : string; a_showarrow : bool; a_align : string; a_font_size : Z
}.

(** The trace [px.choropleth] builds, kept as the arguments it was given. *)
Record Choropleth := {
  data_frame_arg : DataFrame;
  geojson : Json;
  color : string;
  locations : string;
  color_continuous_scale : string;
  featureidkey : string
}.

Record Margin := { m_r : Z; m_t : Z; m_l : Z; m_b : Z }.

Record Layout := {
  plot_bgcolor : option string;
  xaxis_showticklabels : option bool;
  yaxis_showticklabels : option bool;
  annotations : list Annotation;
  geo_projection_type : option string;
  geo_fitbounds : option string;
  margin : option Margin
}.

Record Figure := { data : list Choropleth; layout : Layout }.

(** [go.Figure({})] *)
Definition empty_figure : Figure :=
  {| data := [];
     layout := {| plot_bgcolor := None; xaxis_showticklabels := None;
                  yaxis_showticklabels := None; annotations := [];
                  geo_projection_type := None; geo_fitbounds := None;
                  margin := None |} |}.

Definition update_layout_blank (fig : Figure) : Figure :=
  {| data := data fig;
     layout := {| plot_bgcolor := Some "white";
                  xaxis_showticklabels := Some false;
                  yaxis_showticklabels := Some false;
                  annotations := annotations (layout fig);
                  geo_projection_type := geo_projection_type (layout fig);
                  geo_fitbounds := geo_fitbounds (layout fig);
                  margin := margin (layout fig) |} |}.

Definition add_annotation (fig : Figure) (a : Annotation) : Figure :=
  {| data := data fig;
     layout := {| plot_bgcolor := plot_bgcolor (layout fig);
                  xaxis_showticklabels := xaxis_showticklabels (layout fig);
                  yaxis_showticklabels := yaxis_showticklabels (layout fig);
                  annotations := annotations (layout fig) ++ [a];
                  geo_projection_type := geo_projection_type (layout fig);
                  geo_fitbounds := geo_fitbounds (layout fig);
                  margin := margin (layout fig) |} |}.

Definition update_geos (fig : Figure) (projection fitbounds : string) : Figure :=
  {| data := data fig;
     layout := {| plot_bgcolor := plot_bgcolor (layout fig);
                  xaxis_showticklabels := xaxis_showticklabels (layout fig);
                  yaxis_showticklabels := yaxis_showticklabels (layout fig);
                  annotations := annotations (layout fig);
                  geo_projection_type := Some projection;
                  geo_fitbounds := Some fitbounds;
                  margin := margin (layout fig) |} |}.

Definition update_layout_margin (fig : Figure) (m : Margin) : Figure :=
  {| data := data fig;
     layout := {| plot_bgcolor := plot_bgcolor (layout fig);
                  xaxis_showticklabels := xaxis_showticklabels (layout fig);
                  yaxis_showticklabels := yaxis_showticklabels (layout fig);
                  annotations := annotations (layout fig);
                  geo_projection_type := geo_projection_type (layout fig);
                  geo_fitbounds := geo_fitbounds (layout fig);
                  margin := Some m |} |}.

(** The Dash components the callbacks build. *)
Record TableColumn := { col_name : string; col_id : string }.

Inductive Component :=
| P (children : string) (id : option string) (style : dict string)
| Br
| DataTable (id : string) (columns : option (list TableColumn))
    (data : option (list (dict value))) (editable : bool)
| Graph (id : string) (figure : Figure).

End Plotly.
Export Plotly.

(* ===================================================================== *)
(** ** What the program delegates to its libraries *)
(* ===================================================================== *)

(** [urllib.parse.urlparse]: the two components the loader looks at. *)
Record ParseResult := { scheme : string; netloc : string }.

(** What [gp.read_file] is handed: a path or URL, or an in-memory text
    buffer ([io.StringIO]). *)
Inductive Content :=
| Str (s : string)
| StringIO (text : string).

(** The outside world is consulted in the order of the trace: where a
    primitive depends on the moment of the call (a fresh file name, the
    clock), it takes the number of outside calls made so far. *)
Record Library := {
  (** [s.strip()] *)
  strip : string -> string;
  (** [urlparse(s)] *)
  urlparse : string -> result ParseResult;
  (** [str(Path(s).expanduser().absolute())] *)
  absolute_path : string -> result string;
  (** [gp.read_file(content)] *)
  read_file : Content -> result GeoDataFrame;
  (** [base64.b64decode(s)] *)
  b64decode : string -> result (list Byte.byte);
  (** [bytes.decode("utf-8")] *)
  utf8_decode : list Byte.byte -> result string;
  (** the dtype pandas infers for a freshly built column *)
  infer_dtype : list value -> dtype;
  (** [Series.astype(dtype)] on the cells of one column *)
  astype_values : dtype -> list value -> result (list value);
  (** what [DataFrame.values] makes of a cell, given the dtypes of the
      columns of the frame: the cell converted to their common dtype *)
  interleave : list dtype -> value -> value;
  (** [gdf.to_json()] *)
  to_json : GeoDataFrame -> result string;
  (** [json.loads(text)] *)
  json_loads : string -> result Json;
  (** the exception [px.choropleth] raises on these arguments, if it
      raises; it returns the figure made of them otherwise *)
  choropleth_error : Choropleth -> option exn;
  (** [NamedTemporaryFile(suffix=".geojson").name] *)
  temp_name : nat -> string;
  (** [gdf.to_file(path, driver="GeoJSON")] followed by reading the file
      back: the text written *)
  to_file : string -> GeoDataFrame -> result string;
  (** [datetime.now().strftime("%Y%m%dT%H%M")] *)
  strftime_now : nat -> string
}.

Module Frames.
Section WithLibrary.
Variable lib : Library.

(** [pd.DataFrame(records)] for a list of row dictionaries: one row per
    dictionary, one column per key, a missing cell where a row lacks a key. *)
Definition of_records (records : list (dict value)) : DataFrame :=
  {| index := length records;
     cols := map (fun k =>
                    let cells := map (fun r => default VNone (get r k)) records in
                    (k, {| dtype_of := infer_dtype lib cells; values := cells |}))
                 (record_keys records) |}.

Definition astype_col (dtypes : gmap string dtype) (col : string * Series)
  : result (string * Series) :=
  match dtypes !! fst col with
  | Some d =>
      rbind (astype_values lib d (values (snd col)))
            (fun cells => Ok (fst col, {| dtype_of := d; values := cells |}))
  | None => Ok col
  end.

(** [df.astype(dtypes)] for a mapping from column names to dtypes: every key
    of the mapping must name a column; the named columns are cast, the others
    are kept. *)
Definition astype (df : DataFrame) (dtypes : gmap string dtype) : result DataFrame :=
  match list_find (fun k => k ∉ columns df) (map fst (map_to_list dtypes)) with
  | Some (_, k) => Raise (KeyError k)
  | None =>
      rbind (rmapM (astype_col dtypes) (cols df))
            (fun casted => Ok {| index := index df; cols := casted |})
  end.

(** [df.values]: the rows, each one the list of its cells in column order,
    every cell converted to the common dtype of the columns. *)
Definition row (df : DataFrame) (i : nat) : list value :=
  map (fun cs => interleave lib (map (fun cs => dtype_of (snd cs)) (cols df))
                   (nth i (values (snd cs)) VNone))
      (cols df).

Definition rows (df : DataFrame) : list (list value) :=
  map (row df) (seq 0 (index df)).

(** The cells of a series on the row labels [0 .. n - 1]: the cells it has
    for these labels, a missing cell for the others. *)
Definition reindex (n : nat) (cells : list value) : list value :=
  (take n cells ++ replicate (n - length cells) VNone)%list.

Definition reindex_series (n : nat) (s : Series) : Series :=
  {| dtype_of := dtype_of s; values := reindex n (values s) |}.

(** [gp.GeoDataFrame(data, geometry=series, crs=crs)]: the frame [data] with
    [series] set as its "geometry" column, in the given reference system.
    The assignment aligns the series on the row labels of the frame: the
    column gets the cells of the series for the rows the frame has.  A frame
    without rows takes the row labels of a series that has some, its own
    columns being filled with missing cells. *)
Definition GeoDataFrame_new (data : DataFrame) (geometry : Series)
  (crs : option string) : GeoDataFrame :=
  if (index data =? 0)%nat && (0 <? length (values geometry))%nat then
    let n := length (values geometry) in
    {| frame :=
         setitem {| index := n;
                    cols := map (fun cs => (fst cs, reindex_series n (snd cs)))
                                (cols data) |}
                 "geometry" geometry;
       crs := crs |}
  else
    {| frame := setitem data "geometry" (reindex_series (index data) geometry);
       crs := crs |}.

(** [px.choropleth(data_frame, geojson=..., color=..., locations=..., ...)] *)
Definition px_choropleth (args : Choropleth) : result Figure :=
  match choropleth_error lib args with
  | Some error => Raise error
  | None => Ok {| data := [args]; layout := layout empty_figure |}
  end.

End WithLibrary.
End Frames.
Export Frames.

(* ===================================================================== *)
(** ** The process state and the callback monad *)
(* ===================================================================== *)

(** [utils.GeoJsonFile]: the dataclass holding the loaded dataset. *)
Record GeoJsonFile := { data_frame : option GeoDataFrame }.

(** What a callback does to the outside world, in order. *)
Inductive event :=
| ReadFile (content : Content)
| WriteFile (dataset : GeoDataFrame)
| LoggerError (error : exn).

(** The module-level object [geo_json_obj] of [server.py], and the calls
    made so far. *)
Record World := { geo_json_obj : GeoJsonFile; events : list event }.

(** A computation reads and updates the world and returns or raises; what
    it did before raising stays done. *)
Definition M (A : Type) := World -> result A * World.

Definition ret {A} (a : A) : M A := fun w => (Ok a, w).

Definition raise {A} (e : exn) : M A := fun w => (Raise e, w).

Definition bind {A B} (m : M A) (k : A -> M B) : M B :=
  fun w =>
    match m w with
    | (Ok a, w') => k a w'
    | (Raise e, w') => (Raise e, w')
    end.

(** [try: m except Exception as error: handler(error)] *)
Definition try_except {A} (m : M A) (handler : exn -> M A) : M A :=
  fun w =>
    match m w with
    | (Ok a, w') => (Ok a, w')
    | (Raise e, w') => handler e w'
    end.

Definition lift {A} (r : result A) : M A := fun w => (r, w).

Definition get_data_frame : M (option GeoDataFrame) :=
  fun w => (Ok (data_frame (geo_json_obj w)), w).

Definition set_data_frame (df : option GeoDataFrame) : M unit :=
  fun w => (Ok tt, {| geo_json_obj := {| data_frame := df |}; events := events w |}).

Definition emit (e : event) : M unit :=
  fun w => (Ok tt, {| geo_json_obj := geo_json_obj w; events := events w ++ [e] |}).

(** The number of outside calls made so far. *)
Definition calls : M nat := fun w => (Ok (length (events w)), w).

Declare Scope py_scope.
Delimit Scope py_scope with py.
Notation "x <- m ;; k" := (bind m (fun x => k))
  (at level 100, m at next level, right associativity) : py_scope.
Notation "m ;;; k" := (bind m (fun _ => k))
  (at level 100, right associativity) : py_scope.
Notation "x <~ r ;; k" := (rbind r (fun x => k))
  (at level 100, r at next level, right associativity) : py_scope.
Open Scope py_scope.

(** The state in which the process starts: [geo_json_obj = GeoJsonFile()]. *)
Definition initial_world : World :=
  {| geo_json_obj := {| data_frame := None |}; events := [] |}.

(* ===================================================================== *)
(** ** utils.py *)
(* ===================================================================== *)

Module Utils.
Section WithLibrary.
Variable lib : Library.

(** [GeoJsonFile.dash_data_table_from_dataframe] *)
Definition dash_data_table_from_dataframe (self : GeoJsonFile)
  (columns : list string) : result (list (dict value)) :=
  match data_frame self with
  | None => Ok []
  | Some gdf =>
      selected <~ getitems (frame gdf) columns ;;
      Ok (map (fun line => of_zip columns line) (rows lib selected))
  end.

(** [GeoJsonFile.columns] *)
Definition columns (self : GeoJsonFile) : list string :=
  match data_frame self with
  | None => []
  | Some gdf => filter (λ c, c ≠ "geometry") (Pandas.columns (frame gdf))
  end.

(** [GeoJsonFile.dtypes] *)
Definition dtypes (self : GeoJsonFile) : result (gmap string dtype) :=
  match data_frame self with
  | None => Ok ∅
  | Some gdf =>
      fold_left (fun acc c =>
                   m <~ acc ;;
                   s <~ getitem (frame gdf) c ;;
                   Ok (<[c := dtype_of s]> m))
                (columns self) (Ok ∅)
  end.

(** [GeoJsonFile.to_viewbox] *)
Definition to_viewbox (self : GeoJsonFile) : result (list Component) :=
  match data_frame self with
  | None =>
      Ok [ P "Load geojson file in the display tab first" None [("color", "red")];
           Br;
           DataTable "table" None None false ]
  | Some gdf =>
      let columns := filter (λ c, c ≠ "geometry") (Pandas.columns (frame gdf)) in
      data <~ dash_data_table_from_dataframe self columns ;;
      Ok [ P "To edit: click cells, adjust and press enter" None [];
           Br;
           DataTable "table"
             (Some (map (fun c => {| col_name := c; col_id := c |}) columns))
             (Some data) true ]
  end.

(** [read_upload_content]: the unpacking [_, content_string = ...] needs
    exactly two pieces. *)
Definition read_upload_content (content : string) : result string :=
  match split "," content with
  | [_; content_string] =>
      decoded <~ b64decode lib content_string ;;
      utf8_decode lib decoded
  | [] | [_] => Raise (ValueError "not enough values to unpack (expected 2, got 1)")
  | _ => Raise (ValueError "too many values to unpack (expected 2)")
  end.

(** [load_geojson] *)
Definition load_geojson (inp_path upload_content : option string) : M GeoDataFrame :=
  content <-
    match inp_path with
    | Some inp_path =>
        let content := strip lib inp_path in
        parsed_url <- lift (urlparse lib content) ;;
        if negb (truthy (netloc parsed_url)) && negb (truthy (scheme parsed_url))
        then path <- lift (absolute_path lib content) ;; ret (Str path)
        else ret (Str content)
    | None =>
        match upload_content with
        | Some upload_content =>
            text <- lift (read_upload_content upload_content) ;;
            ret (StringIO text)
        | None => ret (Str "")
        end
    end ;;
  emit (ReadFile content) ;;;
  lift (read_file lib content).

End WithLibrary.
End Utils.

(* ===================================================================== *)
(** ** server.py *)
(* ===================================================================== *)

Module Server.
Section WithLibrary.
Variable lib : Library.

(** The default of [_clear_fig]'s [text] parameter. *)
Definition default_text : string :=
  "Choose 2 columns and click the view button to compare.".

(** [_clear_fig] *)
Definition _clear_fig (fig : option Figure) (text : string) : Figure :=
  let fig := update_layout_blank (default empty_figure fig) in
  add_annotation fig
    {| a_x := 1 # 2; a_y := 1 # 2; a_xref := "paper"; a_yref := "paper";
       a_text := text; a_showarrow := false; a_align := "center";
       a_font_size := 16 |}.

(** The seven outputs of [create_columns], named after the component
    properties they update. *)
Record ColumnsOutput := {
  column1_options : list string;
  loading1_children : Component;
  table_box_children : list Component;
  reset_button_disabled : bool;
  save_button_disabled : bool;
  geojson_file_value : string;
  graph_box_children : list Component
}.

Definition self : M GeoJsonFile := fun w => (Ok (geo_json_obj w), w).

(** [create_columns]; [triggered_id] is [ctx.triggered_id], the id of the
    component whose event fired the callback ([None] at start-up). *)
Definition create_columns (triggered_id : option string)
  (geojson_file upload_content : option string) : M ColumnsOutput :=
  if bool_decide (geojson_file = None) && bool_decide (upload_content = None) then
    obj <- self ;;
    viewbox <- lift (Utils.to_viewbox lib obj) ;;
    ret {| column1_options := [];
           loading1_children := P "" (Some "load-status") [];
           table_box_children := viewbox;
           reset_button_disabled := true;
           save_button_disabled := true;
           geojson_file_value := "";
           graph_box_children := [Graph "graph" (_clear_fig None default_text)] |}
  else
    loaded <-
      (if eq_str triggered_id "load-button" || bool_decide (upload_content ≠ None) then
         let inputs :=
           if eq_str triggered_id "load-button"
           then (geojson_file, None)
           else (None, upload_content) in
         set_data_frame None ;;;
         status_msg <-
           try_except
             (df <- Utils.load_geojson lib (fst inputs) (snd inputs) ;;
              set_data_frame (Some df) ;;;
              ret "")
             (fun error =>
                emit (LoggerError error) ;;;
                ret "Error: Could not load data content") ;;
         ret (fst inputs, status_msg)
       else ret (geojson_file, "")) ;;
    let geojson_file := fst loaded in
    let status_msg := snd loaded in
    df <- get_data_frame ;;
    let '(columns, disable_button) :=
      match df with
      | None => ([], true)
      | Some gdf =>
          (filter (λ c, c ≠ "geometry") (Pandas.columns (frame gdf)), false)
      end in
    obj <- self ;;
    viewbox <- lift (Utils.to_viewbox lib obj) ;;
    ret {| column1_options := columns;
           loading1_children := P status_msg (Some "load-status") [("color", "red")];
           table_box_children := viewbox;
           reset_button_disabled := disable_button;
           save_button_disabled := disable_button;
           geojson_file_value := or_empty geojson_file;
           graph_box_children := [Graph "graph" (_clear_fig None default_text)] |}.

(** What [display_choropleth] returns: the pair (figure, loading text) on
    every path but one, which returns the figure alone. *)
Inductive ViewOutput :=
| FigureAndStatus (figure : Figure) (loading2 : string)
| FigureOnly (figure : Figure).

(** [columns[i]] where the list is known to be long enough. *)
Definition item (columns : list (option string)) (i : nat) : option string :=
  nth i columns None.

(** [display_choropleth] *)
Definition display_choropleth (columns : option (list (option string)))
  (table_data : list (dict value)) : M ViewOutput :=
  df <- get_data_frame ;;
  match columns, df with
  | None, _ | _, None => ret (FigureAndStatus (_clear_fig None default_text) "")
  | Some columns, Some gdf =>
      if negb (length columns =? 2)%nat then
        ret (FigureAndStatus (_clear_fig None default_text) "")
      else if (2 <? length columns)%nat then
        ret (FigureOnly (_clear_fig None "You should select only 2 data keys."))
      else
        match item columns 0, item columns 1 with
        | None, _ | _, None =>
            ret (FigureAndStatus (_clear_fig None default_text) "")
        | Some location, Some color =>
            if String.eqb location color then
              ret (FigureAndStatus (_clear_fig None default_text) "")
            else if String.eqb location color then
              ret (FigureAndStatus (_clear_fig None "Columns must be different") "")
            else
              obj <- self ;;
              dtypes <- lift (Utils.dtypes obj) ;;
              data_frame <- lift (astype lib (of_records lib table_data) dtypes) ;;
              caught <-
                try_except
                  (selected <- lift (getitems (frame gdf) [color; location; "geometry"]) ;;
                   text <- lift (to_json lib {| frame := selected; crs := crs gdf |}) ;;
                   geojson <- lift (json_loads lib text) ;;
                   ret (Some geojson))
                  (fun error =>
                     match error with
                     | KeyError _ => ret None
                     | _ => raise error
                     end) ;;
              match caught with
              | None => ret (FigureAndStatus (_clear_fig None default_text) "")
              | Some geojson =>
                  fig <- lift (px_choropleth lib
                                 {| data_frame_arg := data_frame;
                                    geojson := geojson;
                                    color := color;
                                    locations := location;
                                    color_continuous_scale := "Viridis";
                                    featureidkey := "properties." ++ location |}) ;;
                  let fig := update_geos fig "orthographic" "locations" in
                  let fig := update_layout_margin fig
                               {| m_r := 0; m_t := 0; m_l := 0; m_b := 0 |} in
                  ret (FigureAndStatus fig "")
              end
        end
  end.

(** The dictionary [save_data] returns to the download component. *)
Record Download := { content : string; filename : string }.

(** [save_data]; the temporary file is written and read back inside
    [to_file], under the name it was given. *)
Definition save_data (table_data : list (dict value))
  (table_columns : list TableColumn) : M Download :=
  df <- get_data_frame ;;
  match df with
  | None => raise PreventUpdate
  | Some gdf =>
      obj <- self ;;
      dtypes <- lift (Utils.dtypes obj) ;;
      attributes <- lift (astype lib (of_records lib table_data) dtypes) ;;
      geometry <- lift (getitem (frame gdf) "geometry") ;;
      let data_frame := GeoDataFrame_new attributes geometry (crs gdf) in
      opened <- calls ;;
      let temp_f := temp_name lib opened in
      emit (WriteFile data_frame) ;;;
      content <- lift (to_file lib temp_f data_frame) ;;
      read <- calls ;;
      let time := strftime_now lib read in
      let out_file := "geojsonviewer-" ++ time ++ ".geojson" in
      ret {| content := content; filename := out_file |}
  end.

End WithLibrary.
End Server.

(* ===================================================================== *)
(** ** A concrete library, to run the callbacks *)
(* ===================================================================== *)

(** Small executable stand-ins for the delegated primitives: a base64
    decoder for the standard alphabet, a UTF-8 decoder for the ASCII range,
    a file system holding one file, and casts between the cell kinds. *)
Module Sample.

Definition b64_digit (c : ascii) : option N :=
  let n := N_of_ascii c in
  if ((65 <=? n) && (n <=? 90))%N then Some (n - 65)%N
  else if ((97 <=? n) && (n <=? 122))%N then Some (n - 71)%N
  else if ((48 <=? n) && (n <=? 57))%N then Some (n + 4)%N
  else if (n =? 43)%N then Some 62%N
  else if (n =? 47)%N then Some 63%N
  else None.

Definition is_pad (c : ascii) : bool := Ascii.eqb c "=".

Definition byte_of (n : N) : list Byte.byte :=
  match Byte.of_N (n mod 256) with
  | Some b => [b]
  | None => []
  end.

(** The decoder reads the text once, skipping what is not a digit of the
    alphabet; [quad_pos] is the position in the current group of four,
    [leftchar] the bits not yet written, [pads] the padding seen in a row. *)
Record b64_state := {
  quad_pos : nat; leftchar : N; pads : nat;
  bin_data : list Byte.byte; finished : bool
}.

Definition b64_step (st : b64_state) (c : ascii) : b64_state :=
  if finished st then st
  else if is_pad c then
    if (2 <=? quad_pos st)%nat then
      if (4 <=? quad_pos st + S (pads st))%nat
      then {| quad_pos := quad_pos st; leftchar := leftchar st;
              pads := S (pads st); bin_data := bin_data st; finished := true |}
      else {| quad_pos := quad_pos st; leftchar := leftchar st;
              pads := S (pads st); bin_data := bin_data st; finished := false |}
    else st
  else
    match b64_digit c with
    | None => st
    | Some v =>
        match quad_pos st with
        | 0%nat => {| quad_pos := 1; leftchar := v; pads := 0;
                      bin_data := bin_data st; finished := false |}
        | 1%nat => {| quad_pos := 2; leftchar := (v mod 16)%N; pads := 0;
                      bin_data := (bin_data st ++ byte_of (leftchar st * 4 + v / 16))%list;
                      finished := false |}
        | 2%nat => {| quad_pos := 3; leftchar := (v mod 4)%N; pads := 0;
                      bin_data := (bin_data st ++ byte_of (leftchar st * 16 + v / 4))%list;
                      finished := false |}
        | _ => {| quad_pos := 0; leftchar := 0; pads := 0;
                  bin_data := (bin_data st ++ byte_of (leftchar st * 64 + v))%list;
                  finished := false |}
        end
    end.

Definition b64decode (s : string) : result (list Byte.byte) :=
  let st := fold_left b64_step (list_ascii_of_string s)
              {| quad_pos := 0; leftchar := 0; pads := 0;
                 bin_data := []; finished := false |} in
  if finished st || (quad_pos st =? 0)%nat then Ok (bin_data st)
  else Raise (LibraryError "Incorrect padding").

(** White space, within the ASCII range. *)
Definition isspace (c : ascii) : bool :=
  let n := N_of_ascii c in
  ((9 <=? n) && (n <=? 13) || (28 <=? n) && (n <=? 32))%N.

Fixpoint lstrip (s : string) : string :=
  match s with
  | EmptyString => EmptyString
  | String c s' => if isspace c then lstrip s' else s
  end.

Fixpoint rstrip (s : string) : string :=
  match s with
  | EmptyString => EmptyString
  | String c s' =>
      match rstrip s' with
      | EmptyString => if isspace c then EmptyString else String c EmptyString
      | t => String c t
      end
  end.

Definition strip (s : string) : string := rstrip (lstrip s).

Definition utf8_decode (bytes : list Byte.byte) : result string :=
  if forallb (fun b => (Byte.to_N b <? 128)%N) bytes
  then Ok (string_of_list_ascii (map ascii_of_byte bytes))
  else Raise (LibraryError "'utf-8' codec can't decode byte")%string.

Definition urlparse (s : string) : result ParseResult :=
  if String.prefix "https://" s then
    Ok {| scheme := "https";
          netloc := hd "" (split "/" (String.substring 8 (String.length s - 8) s)) |}
  else if String.prefix "http://" s then
    Ok {| scheme := "http";
          netloc := hd "" (split "/" (String.substring 7 (String.length s - 7) s)) |}
  else Ok {| scheme := ""; netloc := "" |}.

Definition absolute_path (s : string) : result string :=
  if String.prefix "/" s then Ok s
  else if String.prefix "~/" s
       then Ok ("/home/user/" ++ String.substring 2 (String.length s - 2) s)
       else Ok ("/srv/app/" ++ s).

(** The one dataset there is: two countries with a name, a population (in
    millions) and an area (in thousands of square kilometres). *)
Definition countries : GeoDataFrame :=
  {| frame :=
       {| index := 2;
          cols := [ ("name", {| dtype_of := object_;
                                values := [VStr "Chile"; VStr "Peru"] |});
                    ("pop", {| dtype_of := int64;
                               values := [VInt 19; VInt 33] |});
                    ("area", {| dtype_of := int64;
                                values := [VInt 756; VInt 1285] |});
                    ("geometry", {| dtype_of := geometry_;
                                    values := [VGeom "POLYGON ((-75 -55, -66 -17, -70 -17, -75 -55))";
                                               VGeom "POLYGON ((-81 -4, -68 -12, -70 -18, -81 -4))"] |}) ] |};
     crs := Some "EPSG:4326" |}.

(** It is served from one path, one URL and as one upload text. *)
Definition read_file (c : Content) : result GeoDataFrame :=
  match c with
  | Str s =>
      if String.eqb s "/srv/app/countries.geojson"
         || String.eqb s "https://example.org/countries.geojson"
      then Ok countries
      else Raise (LibraryError "No such file or directory")
  | StringIO text =>
      if String.eqb text "countries" then Ok countries
      else Raise (LibraryError "not recognized as a supported file format")
  end.

Definition infer_dtype (cells : list value) : dtype :=
  match cells with
  | VBool _ :: _ => bool_
  | VInt _ :: _ => int64
  | VFloat _ :: _ => float64
  | VGeom _ :: _ => geometry_
  | _ => object_
  end.

Definition cast (d : dtype) (v : value) : result value :=
  match d, v with
  | object_, _ => Ok v
  | int64, VInt _ => Ok v
  | int64, VBool b => Ok (VInt (if b then 1 else 0))
  | float64, VFloat _ => Ok v
  | float64, VInt z => Ok (VFloat (inject_Z z))
  | bool_, VBool _ => Ok v
  | geometry_, VGeom _ => Ok v
  | _, _ => Raise (ValueError "cannot convert")
  end.

(** Integers beside floats come out of [DataFrame.values] as floats; any
    other mixture is left as it is. *)
Definition interleave (dtypes : list dtype) (v : value) : value :=
  let numeric d := match d with int64 | float64 => true | _ => false end in
  let float d := match d with float64 => true | _ => false end in
  if forallb numeric dtypes && existsb float dtypes then
    match v with
    | VInt z => VFloat (inject_Z z)
    | _ => v
    end
  else v.

Definition to_json (gdf : GeoDataFrame) : result string :=
  if bool_decide (NoDup (columns (frame gdf)))
  then Ok ("FeatureCollection(" ++ String.concat "," (columns (frame gdf)) ++ ")")
  else Raise (ValueError "GeoDataFrame cannot contain duplicated column names.").

Definition json_loads (text : string) : result Json :=
  Ok (JObject [("type", JString "FeatureCollection"); ("features", JString text)]).

Definition choropleth_error (args : Choropleth) : option exn :=
  if bool_decide (color args ∈ columns (data_frame_arg args))
     && bool_decide (locations args ∈ columns (data_frame_arg args))
  then None
  else Some (ValueError "not the name of a column in 'data_frame'").

Definition digits (n : nat) : string := NilEmpty.string_of_uint (Nat.to_uint n).

Definition temp_name (n : nat) : string := "/tmp/tmp" ++ digits n ++ ".geojson".

(** The text written names the layer after the file. *)
Definition to_file (path : string) (gdf : GeoDataFrame) : result string :=
  Ok ("FeatureCollection " ++ path ++ " (" ++ String.concat "," (columns (frame gdf)) ++ ")").

Definition strftime_now (n : nat) : string := "20221001T12" ++ digits (10 + n mod 50).

Definition library : Library :=
  Build_Library strip urlparse absolute_path read_file b64decode utf8_decode
    infer_dtype (fun d => rmapM (cast d)) interleave to_json json_loads
    choropleth_error temp_name to_file strftime_now.

(** A state in which the dataset is loaded. *)
Definition loaded_world : World :=
  {| geo_json_obj := {| data_frame := Some countries |}; events := [] |}.

(** The grid the edit view shows for it, as the browser sends it back. *)
Definition countries_grid : list (dict value) :=
  [ [("name", VStr "Chile"); ("pop", VInt 19); ("area", VInt 756)];
    [("name", VStr "Peru"); ("pop", VInt 33); ("area", VInt 1285)] ].

End Sample.

(* ===================================================================== *)
(** ** Vocabulary of the statements *)
(* ===================================================================== *)

(** What the specification says of the decoder: cut at the first separator
    only, drop what is before it, decode all that follows. *)
Definition read_upload_content_first_separator (lib : Library) (content : string)
  : result string :=
  match after_first "," content with
  | Some content_string =>
      decoded <~ b64decode lib content_string ;;
      utf8_decode lib decoded
  | None => Raise (ValueError "not enough values to unpack (expected 2, got 1)")
  end.

(** The world after one more call of the file-reading primitive. *)
Definition after_read (w : World) (c : Content) : World :=
  {| geo_json_obj := geo_json_obj w; events := events w ++ [ReadFile c] |}.

(** The tuple [create_columns] returns on its last line, as a function of
    the holder it finds there, of the status text and of the URL it echoes. *)
Definition response (lib : Library) (self : GeoJsonFile) (status_msg : string)
  (geojson_file : option string) : result Server.ColumnsOutput :=
  viewbox <~ Utils.to_viewbox lib self ;;
  Ok {| Server.column1_options := Utils.columns self;
        Server.loading1_children := P status_msg (Some "load-status") [("color", "red")];
        Server.table_box_children := viewbox;
        Server.reset_button_disabled := bool_decide (data_frame self = None);
        Server.save_button_disabled := bool_decide (data_frame self = None);
        Server.geojson_file_value := or_empty geojson_file;
        Server.graph_box_children :=
          [Graph "graph" (Server._clear_fig None Server.default_text)] |}.

(** The tuple returned at start-up, when there is no input at all. *)
Definition startup_response (lib : Library) (self : GeoJsonFile)
  : result Server.ColumnsOutput :=
  viewbox <~ Utils.to_viewbox lib self ;;
  Ok {| Server.column1_options := [];
        Server.loading1_children := P "" (Some "load-status") [];
        Server.table_box_children := viewbox;
        Server.reset_button_disabled := true;
        Server.save_button_disabled := true;
        Server.geojson_file_value := "";
        Server.graph_box_children :=
          [Graph "graph" (Server._clear_fig None Server.default_text)] |}.

(** The world once the document has been dropped. *)
Definition cleared (w : World) : World :=
  {| geo_json_obj := {| data_frame := None |}; events := events w |}.

(** What the callback makes of one run of the loader: on success the
    dataset becomes the document; on failure the error is logged, the status
    says so, and there is no document. *)
Definition after_load (lib : Library) (geojson_file : option string)
  (loaded : result GeoDataFrame * World) : result Server.ColumnsOutput * World :=
  match loaded with
  | (Ok df, w) =>
      (response lib {| data_frame := Some df |} "" geojson_file,
       {| geo_json_obj := {| data_frame := Some df |}; events := events w |})
  | (Raise error, w) =>
      (response lib {| data_frame := None |} "Error: Could not load data content"
         geojson_file,
       {| geo_json_obj := {| data_frame := None |};
          events := events w ++ [LoggerError error] |})
  end.

(** The state reached from start-up by typing the path of the sample file
    and pressing the load button. *)
Definition world_after_load : World :=
  snd (Server.create_columns Sample.library (Some "load-button")
         (Some "countries.geojson") None initial_world).

(** The grid of the sample, with the population of Peru edited and a
    "geometry" cell typed in by hand: the dataset written out still has the
    shapes of the document. *)
Definition edited_grid : list (dict value) :=
  [ [("name", VStr "Chile"); ("pop", VInt 19); ("area", VInt 756)];
    [("name", VStr "Peru"); ("pop", VInt 34); ("area", VInt 1285);
     ("geometry", VStr "POINT (0 0)")] ].



(** The answer of the view callback when there is nothing to show: the blank
    figure with its default prompt, and an empty loading text. *)
Definition idle : Server.ViewOutput :=
  Server.FigureAndStatus (Server._clear_fig None Server.default_text) "".

(** The texts a figure is annotated with. *)
Definition annotation_texts (fig : Figure) : list string :=
  map a_text (annotations (layout fig)).

(** A selection with which there is nothing to show: none at all, fewer
    than two entries, a null entry, or the same entry twice. *)
Definition idle_selection (columns : option (list (option string))) : Prop :=
  match columns with
  | None => True
  | Some columns => length columns < 2 \/ None ∈ columns \/ ~ NoDup columns
  end.

(** A frame is well formed when its column names are distinct and every
    column has one cell per row. *)
Definition wf_frame (df : DataFrame) : Prop :=
  NoDup (columns df) /\
  Forall (fun cs => length (values (snd cs)) = index df) (cols df).

(** The series found under a name, for names known to be columns. *)
Definition col_of (df : DataFrame) (c : string) : Series :=
  match find_col (cols df) c with
  | Some s => s
  | None => {| dtype_of := object_; values := [] |}
  end.

(** The dtypes of the columns a selection puts side by side. *)
Definition selected_dtypes (df : DataFrame) (cs : list string) : list dtype :=
  map (fun c => dtype_of (col_of df c)) cs.

(** The attribute cells of a frame survive the trip through the grid when,
    for every column but the geometry, casting what [DataFrame.values] makes
    of its cells (beside the other attribute columns) to the dtype of the
    column gives its cells back. *)
Definition grid_casts_back (lib : Library) (df : DataFrame) : Prop :=
  let cs := filter (λ c, c ≠ "geometry") (columns df) in
  forall c, c ∈ cs ->
    astype_values lib (dtype_of (col_of df c))
      (map (interleave lib (selected_dtypes df cs)) (values (col_of df c)))
    = Ok (values (col_of df c)).

(** The columns of a frame other than its geometry. *)
Definition attribute_cols (df : DataFrame) : list (string * Series) :=
  filter (λ cs, fst cs ≠ "geometry") (cols df).

(** What the view callback asks the plotting library to draw. *)
Definition choropleth_trace (data_frame : DataFrame) (geojson : Json)
  (location color : string) : Choropleth :=
  {| data_frame_arg := data_frame;
     geojson := geojson;
     color := color;
     locations := location;
     color_continuous_scale := "Viridis";
     featureidkey := "properties." ++ location |}.

(** The shapes the view callback hands to the plotting library: the two
    chosen columns and the geometry of the document, as a feature
    collection. *)
Definition shapes (lib : Library) (gdf : GeoDataFrame) (location color : string)
  : result Json :=
  selected <~ getitems (frame gdf) [color; location; "geometry"] ;;
  text <~ to_json lib {| frame := selected; crs := crs gdf |} ;;
  json_loads lib text.

(** The map the view callback draws: one choropleth trace, shapes keyed by
    the first chosen column and coloured by the second, on an orthographic
    projection fitted to the shapes, without margins. *)
Definition choropleth_figure (data_frame : DataFrame) (geojson : Json)
  (location color : string) : Figure :=
  {| data := [ choropleth_trace data_frame geojson location color ];
     layout := {| plot_bgcolor := None; xaxis_showticklabels := None;
                  yaxis_showticklabels := None; annotations := [];
                  geo_projection_type := Some "orthographic";
                  geo_fitbounds := Some "locations";
                  margin := Some {| m_r := 0; m_t := 0; m_l := 0; m_b := 0 |} |} |}.

(* ===================================================================== *)
(** ** Facts about the Python helpers *)
(* ===================================================================== *)

Section SplitFacts.
Variable sep : ascii.

Lemma split_not_nil (s : string) : split sep s <> [].
Proof.
  destruct s as [|c s]; simpl; [discriminate|].
  destruct (Ascii.eqb c sep); [discriminate|].
  destruct (split sep s); discriminate.
Qed.

Lemma length_split (s : string) : length (split sep s) = S (count sep s).
Proof.
  induction s as [|c s IH]; simpl; [reflexivity|].
  destruct (Ascii.eqb c sep); simpl.
  - now rewrite IH.
  - destruct (split sep s) as [|piece pieces] eqn:E.
    + now destruct (split_not_nil s).
    + simpl in *. exact IH.
Qed.

Lemma split_no_separator (s : string) : count sep s = 0 -> split sep s = [s].
Proof.
  induction s as [|c s IH]; simpl; [reflexivity|].
  destruct (Ascii.eqb c sep); simpl; [discriminate|].
  intros H. now rewrite (IH H).
Qed.

Lemma split_one_separator (s : string) :
  count sep s = 1 ->
  exists prefix rest,
    split sep s = [prefix; rest] /\ after_first sep s = Some rest.
Proof.
  induction s as [|c s IH]; simpl; [discriminate|].
  destruct (Ascii.eqb c sep); simpl; intros H.
  - exists EmptyString, s. split; [|reflexivity].
    now rewrite split_no_separator by lia.
  - destruct (IH H) as (prefix & rest & -> & ->).
    now exists (String c prefix), rest.
Qed.

Lemma after_first_none (s : string) : count sep s = 0 -> after_first sep s = None.
Proof.
  induction s as [|c s IH]; simpl; [reflexivity|].
  destruct (Ascii.eqb c sep); simpl; [discriminate|exact IH].
Qed.

End SplitFacts.

Example split_data_uri :
  split "," "data:application/json;base64,e30="
  = ["data:application/json;base64"; "e30="].
Proof. reflexivity. Qed.

Example split_three : split "," "a,b,c" = ["a"; "b"; "c"].
Proof. reflexivity. Qed.

Example split_without_separator : split "," "abc" = ["abc"].
Proof. reflexivity. Qed.

Example strip_path : Sample.strip "  ~/data/map.geojson  " = "~/data/map.geojson".
Proof. reflexivity. Qed.

Example of_zip_row :
  of_zip ["name"; "pop"] [VStr "Chile"; VInt 19] = [("name", VStr "Chile"); ("pop", VInt 19)].
Proof. reflexivity. Qed.

(* ===================================================================== *)
(** ** The upload decoder *)
(* ===================================================================== *)

(** C8, counterexample.  A payload with a second separator after the base64
    text: cutting at the first separator only would decode it (to "hi"), the
    decoder raises instead. *)
Lemma read_upload_content_second_separator :
  Utils.read_upload_content Sample.library "data:text/plain;base64,aGk=,aGk="
    = Raise (ValueError "too many values to unpack (expected 2)")
  /\ read_upload_content_first_separator Sample.library "data:text/plain;base64,aGk=,aGk="
    = Ok "hi"
  /\ Utils.read_upload_content Sample.library "data:text/plain;base64,aGk=,aGk="
    <> read_upload_content_first_separator Sample.library "data:text/plain;base64,aGk=,aGk=".
Proof. repeat split; try reflexivity. vm_compute. discriminate. Qed.

(** C8, as amended.  A payload with exactly one separator is decoded from
    what follows the separator: base64, then UTF-8.  A payload with no
    separator, or with more than one, is rejected with a [ValueError] before
    anything is decoded. *)
Theorem read_upload_content_one_separator (lib : Library) (content : string) :
  (count "," content = 1 ->
   exists content_string,
     after_first "," content = Some content_string /\
     Utils.read_upload_content lib content
       = (decoded <~ b64decode lib content_string ;; utf8_decode lib decoded)) /\
  (count "," content <> 1 ->
   exists msg, Utils.read_upload_content lib content = Raise (ValueError msg)).
Proof.
  unfold Utils.read_upload_content. split.
  - intros H. destruct (split_one_separator "," content H) as (prefix & rest & -> & ->).
    now exists rest.
  - intros H. pose proof (length_split "," content) as L.
    destruct (split "," content) as [|p0 [|p1 [|p2 ps]]]; simpl in L; eauto.
    lia.
Qed.

(** A run on a data URI. *)
Lemma read_upload_content_one_separator_witness :
  count "," "data:application/geo+json;base64,Y291bnRyaWVz" = 1 /\
  Utils.read_upload_content Sample.library "data:application/geo+json;base64,Y291bnRyaWVz"
    = Ok "countries".
Proof.
  split; [reflexivity|].
  destruct (read_upload_content_one_separator Sample.library
              "data:application/geo+json;base64,Y291bnRyaWVz") as [H _].
  destruct (H eq_refl) as (rest & Hrest & ->).
  injection Hrest as <-. reflexivity.
Defined.

(* ===================================================================== *)
(** ** The loader *)
(* ===================================================================== *)

(** C7, counterexample.  With neither a path nor an upload, the loader
    still calls the file-reading primitive: the call is in the trace. *)
Lemma load_geojson_nothing_reads :
  events (snd (Utils.load_geojson Sample.library None None initial_world))
    = [ReadFile (Str "")]
  /\ events (snd (Utils.load_geojson Sample.library None None initial_world))
    <> events initial_world.
Proof. split; [reflexivity|discriminate]. Qed.

(** C7, as amended.  With neither a path nor an upload, the loader calls the
    file-reading primitive exactly once, on the empty string, and returns or
    raises what that call returns or raises; it raises nothing of its own
    and does not touch the document. *)
Theorem load_geojson_nothing (lib : Library) (w : World) :
  Utils.load_geojson lib None None w = (read_file lib (Str ""), after_read w (Str "")).
Proof. unfold Utils.load_geojson, bind, ret, emit, lift; simpl. reflexivity. Qed.

(** With a path, the primitive is called on the stripped path, made
    absolute unless it has a scheme or a host. *)
Lemma load_geojson_path (lib : Library) (w : World) (inp_path : string)
  (upload_content : option string) (parsed : ParseResult) (path : string) :
  urlparse lib (strip lib inp_path) = Ok parsed ->
  netloc parsed = "" -> scheme parsed = "" ->
  absolute_path lib (strip lib inp_path) = Ok path ->
  Utils.load_geojson lib (Some inp_path) upload_content w
    = (read_file lib (Str path), after_read w (Str path)).
Proof.
  intros Hp Hn Hs Ha. unfold Utils.load_geojson, bind, ret, emit, lift; simpl.
  rewrite Hp, Hn, Hs; simpl. rewrite Ha. reflexivity.
Qed.

Lemma load_geojson_url (lib : Library) (w : World) (inp_path : string)
  (upload_content : option string) (parsed : ParseResult) :
  urlparse lib (strip lib inp_path) = Ok parsed ->
  truthy (netloc parsed) || truthy (scheme parsed) = true ->
  Utils.load_geojson lib (Some inp_path) upload_content w
    = (read_file lib (Str (strip lib inp_path)), after_read w (Str (strip lib inp_path))).
Proof.
  intros Hp Hns. unfold Utils.load_geojson, bind, ret, emit, lift; simpl.
  rewrite Hp. destruct (truthy (netloc parsed)), (truthy (scheme parsed));
    simpl in *; try discriminate; reflexivity.
Qed.

(** With an upload only, the primitive is called on a buffer holding the
    decoded text. *)
Lemma load_geojson_upload (lib : Library) (w : World) (upload_content text : string) :
  Utils.read_upload_content lib upload_content = Ok text ->
  Utils.load_geojson lib None (Some upload_content) w
    = (read_file lib (StringIO text), after_read w (StringIO text)).
Proof.
  intros H. unfold Utils.load_geojson, bind, ret, emit, lift; simpl.
  rewrite H. reflexivity.
Qed.

(** The loader never changes the document itself. *)
Lemma load_geojson_keeps_document (lib : Library) (inp_path upload_content : option string)
  (w : World) :
  geo_json_obj (snd (Utils.load_geojson lib inp_path upload_content w)) = geo_json_obj w.
Proof.
  unfold Utils.load_geojson, bind, ret, emit, lift.
  destruct inp_path as [p|]; simpl.
  - destruct (urlparse lib (strip lib p)) as [parsed|e]; simpl; [|reflexivity].
    destruct (negb (truthy (netloc parsed)) && negb (truthy (scheme parsed))); simpl;
      [|reflexivity].
    destruct (absolute_path lib (strip lib p)); reflexivity.
  - destruct upload_content as [u|]; simpl; [|reflexivity].
    destruct (Utils.read_upload_content lib u); reflexivity.
Qed.

Example load_relative_path :
  Utils.load_geojson Sample.library (Some " countries.geojson ") None initial_world
    = (Ok Sample.countries, after_read initial_world (Str "/srv/app/countries.geojson")).
Proof. reflexivity. Qed.

Example load_missing_file :
  fst (Utils.load_geojson Sample.library (Some "nowhere.geojson") None initial_world)
    = Raise (LibraryError "No such file or directory").
Proof. reflexivity. Qed.

(* ===================================================================== *)
(** ** The document holder *)
(* ===================================================================== *)

(** C10.  With no dataset loaded, the accessors of the holder return their
    empty values and raise nothing: no column, no dtype, no row, whatever
    columns are asked for. *)
Theorem accessors_without_dataset (lib : Library) (self : GeoJsonFile) :
  data_frame self = None ->
  Utils.columns self = [] /\
  Utils.dtypes self = Ok ∅ /\
  (forall columns : list string,
     Utils.dash_data_table_from_dataframe lib self columns = Ok []).
Proof.
  intros H. unfold Utils.columns, Utils.dtypes, Utils.dash_data_table_from_dataframe.
  rewrite H. repeat split.
Qed.

Lemma accessors_without_dataset_witness :
  Utils.columns (geo_json_obj initial_world) = [] /\
  Utils.dtypes (geo_json_obj initial_world) = Ok ∅ /\
  (forall columns : list string,
     Utils.dash_data_table_from_dataframe Sample.library (geo_json_obj initial_world) columns
     = Ok []).
Proof. apply accessors_without_dataset. reflexivity. Defined.

(** *** Columns of a frame *)

Lemma find_col_elem_of (cs : list (string * Series)) (c : string) :
  c ∈ map fst cs -> exists s, find_col cs c = Some s.
Proof.
  induction cs as [|[c' s'] cs IH]; simpl; intros H.
  - now apply elem_of_nil in H.
  - destruct (String.eqb_spec c' c) as [->|Hne]; [eauto|].
    apply elem_of_cons in H as [H|H]; [congruence|auto].
Qed.

Lemma find_col_set_col (cs : list (string * Series)) (c : string) (s : Series) :
  find_col (set_col cs c s) c = Some s.
Proof.
  induction cs as [|[c' s'] cs IH]; simpl.
  - now rewrite String.eqb_refl.
  - destruct (String.eqb c' c) eqn:E; simpl; now rewrite E.
Qed.

Lemma find_col_set_col_ne (cs : list (string * Series)) (c c' : string) (s : Series) :
  c <> c' -> find_col (set_col cs c s) c' = find_col cs c'.
Proof.
  intros Hne. induction cs as [|[c0 s0] cs IH]; simpl.
  - destruct (String.eqb_spec c c'); [contradiction|reflexivity].
  - destruct (String.eqb_spec c0 c) as [->|Hc]; simpl.
    + destruct (String.eqb_spec c c'); [contradiction|reflexivity].
    + now rewrite IH.
Qed.

Lemma getitem_elem_of (df : DataFrame) (c : string) :
  c ∈ columns df -> exists s, getitem df c = Ok s.
Proof.
  intros H. unfold getitem.
  destruct (find_col_elem_of (cols df) c H) as [s ->]. eauto.
Qed.

Lemma rmapM_Ok {A B} (f : A -> result B) (l : list A) :
  (forall a, a ∈ l -> exists b, f a = Ok b) ->
  exists bs, rmapM f l = Ok bs /\ length bs = length l.
Proof.
  induction l as [|a l IH]; simpl; intros H; [now exists []|].
  destruct (H a) as [b ->]; [left|]. simpl.
  destruct IH as (bs & -> & Hlen); [intros; apply H; now right|].
  exists (b :: bs). simpl. now rewrite Hlen.
Qed.

Lemma getitems_Ok (df : DataFrame) (cs : list string) :
  (forall c, c ∈ cs -> c ∈ columns df) ->
  exists selected, getitems df cs = Ok selected /\ index selected = index df.
Proof.
  intros H. unfold getitems.
  destruct (rmapM_Ok (fun c => rbind (getitem df c) (fun s => Ok (c, s))) cs)
    as (sel & -> & _).
  - intros c Hc. destruct (getitem_elem_of df c (H c Hc)) as [s ->]. simpl. eauto.
  - simpl. eauto.
Qed.

(** The non-geometry columns of a frame are columns of the frame. *)
Lemma non_geometry_columns (df : DataFrame) (c : string) :
  c ∈ filter (λ c, c ≠ "geometry") (columns df) <-> c ∈ columns df /\ c <> "geometry".
Proof. rewrite list_elem_of_filter. tauto. Qed.

(** The edit view can always be built. *)
Lemma to_viewbox_Ok (lib : Library) (self : GeoJsonFile) :
  exists viewbox, Utils.to_viewbox lib self = Ok viewbox.
Proof.
  unfold Utils.to_viewbox, Utils.dash_data_table_from_dataframe.
  destruct (data_frame self) as [gdf|]; [|eauto].
  destruct (getitems_Ok (frame gdf) (filter (λ c, c ≠ "geometry") (columns (frame gdf))))
    as (sel & -> & _).
  - intros c Hc. now apply non_geometry_columns in Hc.
  - simpl. eauto.
Qed.

(** So can the mapping from columns to dtypes. *)
Lemma dtypes_Ok (self : GeoJsonFile) : exists m, Utils.dtypes self = Ok m.
Proof.
  unfold Utils.dtypes, Utils.columns.
  destruct (data_frame self) as [gdf|]; [|eauto].
  assert (G : forall (cs : list string) (m0 : gmap string dtype),
             (forall c, c ∈ cs -> c ∈ columns (frame gdf)) ->
             exists m, fold_left (fun acc c =>
                                    m <~ acc ;;
                                    s <~ getitem (frame gdf) c ;;
                                    Ok (<[c := dtype_of s]> m)) cs (Ok m0) = Ok m).
  { induction cs as [|c cs IH]; simpl; intros m0 H; [eauto|].
    destruct (getitem_elem_of (frame gdf) c) as [s ->]; [apply H; left|].
    simpl. apply IH. intros; apply H; now right. }
  apply G. intros c Hc. now apply non_geometry_columns in Hc.
Qed.

(* ===================================================================== *)
(** ** The load/reset callback *)
(* ===================================================================== *)

(** Both outcomes of building the edit view lead to the same answer on
    either side. *)
Ltac viewbox_cases := try (destruct (Utils.to_viewbox _)); reflexivity.

Lemma create_columns_startup (lib : Library) (triggered_id : option string) (w : World) :
  Server.create_columns lib triggered_id None None w
    = (startup_response lib (geo_json_obj w), w).
Proof.
  unfold Server.create_columns, startup_response, bind, lift, ret, Server.self; simpl.
  destruct (Utils.to_viewbox lib (geo_json_obj w)); reflexivity.
Qed.

(** Without a load (the trigger is not the load button and there is no
    upload), the callback answers from the document as it stands. *)
Lemma create_columns_no_load (lib : Library) (triggered_id : option string)
  (geojson_file : string) (w : World) :
  eq_str triggered_id "load-button" = false ->
  Server.create_columns lib triggered_id (Some geojson_file) None w
    = (response lib (geo_json_obj w) "" (Some geojson_file), w).
Proof.
  intros Ht. unfold Server.create_columns, response, Utils.columns.
  unfold bind, lift, ret, Server.self, get_data_frame; simpl. rewrite Ht; simpl.
  destruct w as [[[gdf|]] evs]; simpl; viewbox_cases.
Qed.

Lemma load_geojson_cleared (lib : Library) (inp_path upload_content : option string)
  (w : World) :
  geo_json_obj (snd (Utils.load_geojson lib inp_path upload_content (cleared w)))
    = {| data_frame := None |}.
Proof. now rewrite load_geojson_keeps_document. Qed.

(** With a load, the document is dropped, the loader runs on the inputs the
    trigger selects, and the answer is built from its outcome. *)
Lemma create_columns_load (lib : Library) (triggered_id : option string)
  (geojson_file upload_content : option string) (w : World) :
  geojson_file <> None \/ upload_content <> None ->
  eq_str triggered_id "load-button" = true \/ upload_content <> None ->
  Server.create_columns lib triggered_id geojson_file upload_content w
    = if eq_str triggered_id "load-button"
      then after_load lib geojson_file (Utils.load_geojson lib geojson_file None (cleared w))
      else after_load lib None (Utils.load_geojson lib None upload_content (cleared w)).
Proof.
  intros Hin Hload. unfold Server.create_columns.
  assert (bool_decide (geojson_file = None) && bool_decide (upload_content = None) = false)
    as ->.
  { destruct geojson_file, upload_content; try reflexivity. destruct Hin; congruence. }
  assert (eq_str triggered_id "load-button" || bool_decide (upload_content ≠ None) = true)
    as ->.
  { destruct Hload as [->|H]; [reflexivity|].
    destruct upload_content; [apply orb_true_r|congruence]. }
  destruct (eq_str triggered_id "load-button").
  - pose proof (load_geojson_cleared lib geojson_file None w) as K.
    unfold cleared in *.
    cbv [bind try_except set_data_frame emit ret lift get_data_frame Server.self fst snd].
    destruct (Utils.load_geojson lib geojson_file None _) as [[df|e] w1];
      simpl in K; unfold after_load, response, Utils.columns; simpl;
      [|rewrite K; simpl]; viewbox_cases.
  - pose proof (load_geojson_cleared lib None upload_content w) as K.
    unfold cleared in *.
    cbv [bind try_except set_data_frame emit ret lift get_data_frame Server.self fst snd].
    destruct (Utils.load_geojson lib None upload_content _) as [[df|e] w1];
      simpl in K; unfold after_load, response, Utils.columns; simpl;
      [|rewrite K; simpl]; viewbox_cases.
Qed.

Lemma response_Ok (lib : Library) (self : GeoJsonFile) (status_msg : string)
  (geojson_file : option string) :
  exists out,
    response lib self status_msg geojson_file = Ok out /\
    Server.column1_options out = Utils.columns self /\
    Server.reset_button_disabled out = bool_decide (data_frame self = None) /\
    Server.save_button_disabled out = bool_decide (data_frame self = None) /\
    Server.geojson_file_value out = or_empty geojson_file.
Proof.
  unfold response. destruct (to_viewbox_Ok lib self) as [viewbox ->]. simpl.
  eexists. split; [reflexivity|]. simpl. auto.
Qed.

Lemma response_inv (lib : Library) (self : GeoJsonFile) (status_msg : string)
  (geojson_file : option string) (out : Server.ColumnsOutput) :
  response lib self status_msg geojson_file = Ok out ->
  Server.column1_options out = Utils.columns self /\
  Server.reset_button_disabled out = bool_decide (data_frame self = None) /\
  Server.save_button_disabled out = bool_decide (data_frame self = None).
Proof.
  intros H. destruct (response_Ok lib self status_msg geojson_file) as (out' & E & ? & ? & ? & ?).
  rewrite E in H. injection H as <-. auto.
Qed.

(** C5.  When the URL text and the upload payload are both present, the
    trigger decides which one is loaded.  Fired by the load button, the
    callback drops the document and runs the loader on the URL text alone;
    fired by the upload control, it runs the loader on the payload alone.
    Either way the outcome is the one the callback has when the other input
    is absent. *)
Theorem both_inputs_follow_trigger (lib : Library) (w : World)
  (geojson_file upload_content : string) :
  (Server.create_columns lib (Some "load-button") (Some geojson_file) (Some upload_content) w
     = after_load lib (Some geojson_file)
         (Utils.load_geojson lib (Some geojson_file) None (cleared w)) /\
   Server.create_columns lib (Some "load-button") (Some geojson_file) (Some upload_content) w
     = Server.create_columns lib (Some "load-button") (Some geojson_file) None w) /\
  (Server.create_columns lib (Some "upload") (Some geojson_file) (Some upload_content) w
     = after_load lib None
         (Utils.load_geojson lib None (Some upload_content) (cleared w)) /\
   Server.create_columns lib (Some "upload") (Some geojson_file) (Some upload_content) w
     = Server.create_columns lib (Some "upload") None (Some upload_content) w).
Proof.
  split; split.
  - rewrite create_columns_load by (auto; left; discriminate). reflexivity.
  - rewrite !create_columns_load by (auto; left; discriminate). reflexivity.
  - rewrite create_columns_load by (right; discriminate). reflexivity.
  - rewrite !create_columns_load by (right; discriminate). reflexivity.
Qed.

Example load_button_wins :
  fst (Server.create_columns Sample.library (Some "load-button")
         (Some "https://example.org/countries.geojson") (Some "data:,bm90aGluZw==")
         initial_world)
  = response Sample.library {| data_frame := Some Sample.countries |} ""
      (Some "https://example.org/countries.geojson").
Proof. reflexivity. Qed.

Example upload_wins :
  Server.create_columns Sample.library (Some "upload")
    (Some "nowhere.geojson") (Some "data:application/geo+json;base64,Y291bnRyaWVz")
    initial_world
  = (response Sample.library {| data_frame := Some Sample.countries |} "" None,
     {| geo_json_obj := {| data_frame := Some Sample.countries |};
        events := [ReadFile (StringIO "countries")] |}).
Proof. reflexivity. Qed.

(** C9.  Whenever the load/reset callback, given some input, ends with a
    dataset loaded, the column list it returns for the dropdown is the one
    the [columns] accessor gives: the names of the dataset's columns other
    than "geometry", each of them kept, in the order the dataset has them. *)
Theorem columns_after_load (lib : Library) (triggered_id geojson_file upload_content : option string)
  (w w' : World) (out : Server.ColumnsOutput) (gdf : GeoDataFrame) :
  geojson_file <> None \/ upload_content <> None ->
  Server.create_columns lib triggered_id geojson_file upload_content w = (Ok out, w') ->
  data_frame (geo_json_obj w') = Some gdf ->
  Server.column1_options out = Utils.columns (geo_json_obj w') /\
  Utils.columns (geo_json_obj w') = filter (λ c, c ≠ "geometry") (columns (frame gdf)) /\
  (forall c, c ∈ Utils.columns (geo_json_obj w') <-> c ∈ columns (frame gdf) /\ c <> "geometry") /\
  Utils.columns (geo_json_obj w') `sublist_of` columns (frame gdf).
Proof.
  intros Hin Hrun Hdoc.
  assert (Hcols : Utils.columns (geo_json_obj w')
                  = filter (λ c, c ≠ "geometry") (columns (frame gdf))).
  { unfold Utils.columns. now rewrite Hdoc. }
  split; [|split; [exact Hcols|split]].
  - destruct (eq_str triggered_id "load-button") eqn:Ht;
      [|destruct upload_content as [u|]].
    + rewrite create_columns_load in Hrun by auto. rewrite Ht in Hrun.
      destruct (Utils.load_geojson lib geojson_file None (cleared w)) as [[df|e] w1];
        simpl in Hrun; injection Hrun as Hr <-; simpl in *; [|discriminate].
      now apply response_inv in Hr as [? _].
    + rewrite create_columns_load in Hrun by (right; discriminate). rewrite Ht in Hrun.
      destruct (Utils.load_geojson lib None (Some u) (cleared w)) as [[df|e] w1];
        simpl in Hrun; injection Hrun as Hr <-; simpl in *; [|discriminate].
      now apply response_inv in Hr as [? _].
    + destruct geojson_file as [g|]; [|destruct Hin; congruence].
      rewrite create_columns_no_load in Hrun by exact Ht.
      injection Hrun as Hr <-. now apply response_inv in Hr as [? _].
  - intros c. rewrite Hcols. apply non_geometry_columns.
  - rewrite Hcols. apply sublist_filter.
Qed.

(** Loading the sample file through the load button: name, population and
    area are offered, the geometry is not. *)
Lemma columns_after_load_witness :
  Utils.columns {| data_frame := Some Sample.countries |} = ["name"; "pop"; "area"] /\
  Utils.columns {| data_frame := Some Sample.countries |}
    `sublist_of` ["name"; "pop"; "area"; "geometry"].
Proof.
  pose proof (columns_after_load Sample.library (Some "load-button")
                (Some "countries.geojson") None initial_world
                {| geo_json_obj := {| data_frame := Some Sample.countries |};
                   events := [ReadFile (Str "/srv/app/countries.geojson")] |}
                _ Sample.countries
                (or_introl (Some_ne_None _)) eq_refl eq_refl) as (_ & H2 & _ & H4).
  split; [exact H2|exact H4].
Defined.

Example world_after_load_document :
  data_frame (geo_json_obj world_after_load) = Some Sample.countries.
Proof. reflexivity. Qed.

(** C2, counterexample.  After the sample file has been loaded from its
    path, pressing reset (the path still in the URL field, nothing uploaded)
    does not clear the document, returns the three attribute columns, and
    leaves both buttons enabled. *)
Lemma reset_keeps_document :
  exists out w',
    Server.create_columns Sample.library (Some "reset-button")
      (Some "countries.geojson") None world_after_load = (Ok out, w') /\
    data_frame (geo_json_obj w') = Some Sample.countries /\
    data_frame (geo_json_obj w') <> None /\
    Server.column1_options out = ["name"; "pop"; "area"] /\
    Server.column1_options out <> [] /\
    Server.reset_button_disabled out = false /\
    Server.save_button_disabled out = false.
Proof.
  eexists _, _. split; [vm_compute; reflexivity|]. simpl.
  repeat split; discriminate.
Qed.

(** C2, as amended.  In a state with a document loaded, a reset does not
    clear it.  With no upload payload present the document and the trace
    are left as they are: when the URL field holds a text, the callback
    returns the document's non-geometry columns, both buttons enabled and
    the URL text echoed; when the URL field is null, it returns the start-up
    answer (no column, both buttons disabled).  With an upload payload
    present, the document is dropped and loaded again from the payload, the
    URL text being ignored. *)
Theorem reset_with_document (lib : Library) (w : World) (gdf : GeoDataFrame) :
  data_frame (geo_json_obj w) = Some gdf ->
  (forall geojson_file : string,
     exists out,
       Server.create_columns lib (Some "reset-button") (Some geojson_file) None w
         = (Ok out, w) /\
       Server.column1_options out = filter (λ c, c ≠ "geometry") (columns (frame gdf)) /\
       Server.reset_button_disabled out = false /\
       Server.save_button_disabled out = false /\
       Server.geojson_file_value out = geojson_file) /\
  (exists out,
     Server.create_columns lib (Some "reset-button") None None w = (Ok out, w) /\
     Server.column1_options out = [] /\
     Server.reset_button_disabled out = true /\
     Server.save_button_disabled out = true) /\
  (forall (geojson_file : option string) (upload_content : string),
     Server.create_columns lib (Some "reset-button") geojson_file (Some upload_content) w
       = after_load lib None (Utils.load_geojson lib None (Some upload_content) (cleared w))).
Proof.
  intros Hdoc. split; [|split].
  - intros geojson_file. rewrite create_columns_no_load by reflexivity.
    destruct (response_Ok lib (geo_json_obj w) "" (Some geojson_file))
      as (out & -> & Hc & Hr & Hs & Hu).
    exists out. unfold Utils.columns in Hc. rewrite Hdoc in Hc, Hr, Hs.
    repeat split; assumption.
  - rewrite create_columns_startup. unfold startup_response.
    destruct (to_viewbox_Ok lib (geo_json_obj w)) as [viewbox ->]. simpl.
    eexists. split; [reflexivity|]. simpl. auto.
  - intros geojson_file upload_content.
    rewrite create_columns_load by (right; discriminate). reflexivity.
Qed.

Lemma reset_with_document_witness :
  exists out,
    Server.create_columns Sample.library (Some "reset-button")
      (Some "countries.geojson") None world_after_load = (Ok out, world_after_load) /\
    Server.column1_options out = ["name"; "pop"; "area"] /\
    Server.reset_button_disabled out = false /\
    Server.save_button_disabled out = false /\
    Server.geojson_file_value out = "countries.geojson".
Proof.
  destruct (reset_with_document Sample.library world_after_load Sample.countries eq_refl)
    as [H _].
  exact (H "countries.geojson").
Defined.

(* ===================================================================== *)
(** ** The save callback *)
(* ===================================================================== *)

(** C6.  With no document loaded, a save raises [PreventUpdate], the signal
    by which a callback asks that nothing be updated: no payload is
    returned, no file is written, and the state is left as it was. *)
Theorem save_without_document (lib : Library) (w : World)
  (table_data : list (dict value)) (table_columns : list TableColumn) :
  data_frame (geo_json_obj w) = None ->
  Server.save_data lib table_data table_columns w = (Raise PreventUpdate, w).
Proof.
  intros H. unfold Server.save_data, bind, get_data_frame, raise. now rewrite H.
Qed.

Lemma save_without_document_witness :
  Server.save_data Sample.library Sample.countries_grid [] initial_world
    = (Raise PreventUpdate, initial_world).
Proof. apply save_without_document. reflexivity. Defined.

(** *** Aligning a series on the rows of a frame *)



Lemma reindex_all (cells : list value) : reindex (length cells) cells = cells.
Proof.
  unfold reindex. rewrite firstn_all, Nat.sub_diag. simpl. apply app_nil_r.
Qed.

Lemma reindex_series_all (s : Series) : reindex_series (length (values s)) s = s.
Proof. unfold reindex_series. rewrite reindex_all. now destruct s. Qed.



Lemma columns_of_records (lib : Library) (records : list (dict value)) :
  columns (of_records lib records) = record_keys records.
Proof. unfold columns, of_records. simpl. rewrite map_map. simpl. apply map_id. Qed.

Lemma rmapM_astype_col_fst (lib : Library) (dtypes : gmap string dtype)
  (cs casted : list (string * Series)) :
  rmapM (astype_col lib dtypes) cs = Ok casted -> map fst casted = map fst cs.
Proof.
  revert casted. induction cs as [|[c s] cs IH]; simpl; intros casted H.
  - now injection H as <-.
  - unfold astype_col at 1 in H. simpl in H.
    destruct (dtypes !! c) as [d|]; simpl in H.
    + destruct (astype_values lib d (values s)) as [cells|e]; simpl in H; [|discriminate].
      destruct (rmapM (astype_col lib dtypes) cs) as [rest|e]; simpl in H; [|discriminate].
      injection H as <-. simpl. now rewrite (IH rest).
    + destruct (rmapM (astype_col lib dtypes) cs) as [rest|e]; simpl in H; [|discriminate].
      injection H as <-. simpl. now rewrite (IH rest).
Qed.

(** A cast keeps the rows and the names of the columns. *)
Lemma astype_shape (lib : Library) (df df' : DataFrame) (dtypes : gmap string dtype) :
  astype lib df dtypes = Ok df' -> index df' = index df /\ columns df' = columns df.
Proof.
  unfold astype. destruct (list_find _ _) as [[i k]|]; [discriminate|].
  destruct (rmapM (astype_col lib dtypes) (cols df)) as [casted|e] eqn:E; simpl;
    [|discriminate].
  intros [= <-]. simpl. split; [reflexivity|].
  unfold columns. simpl. now apply (rmapM_astype_col_fst lib dtypes).
Qed.

(** The steps of a save with a document loaded. *)
Lemma save_data_loaded (lib : Library) (w : World) (gdf : GeoDataFrame)
  (table_data : list (dict value)) (table_columns : list TableColumn) :
  data_frame (geo_json_obj w) = Some gdf ->
  Server.save_data lib table_data table_columns w =
    match (dtypes <~ Utils.dtypes (geo_json_obj w) ;;
           attributes <~ astype lib (of_records lib table_data) dtypes ;;
           geometry <~ getitem (frame gdf) "geometry" ;;
           Ok (GeoDataFrame_new attributes geometry (crs gdf))) with
    | Raise error => (Raise error, w)
    | Ok dataset =>
        (content <~ to_file lib (temp_name lib (length (events w))) dataset ;;
         Ok {| Server.content := content;
               Server.filename :=
                 "geojsonviewer-"
                 ++ strftime_now lib (length (events w ++ [WriteFile dataset]))
                 ++ ".geojson" |},
         {| geo_json_obj := geo_json_obj w; events := events w ++ [WriteFile dataset] |})
    end.
Proof.
  intros Hdoc. unfold Server.save_data.
  cbv [bind get_data_frame Server.self lift emit ret raise calls]. rewrite Hdoc.
  destruct (Utils.dtypes (geo_json_obj w)) as [dtypes|e]; simpl; [|reflexivity].
  destruct (astype lib (of_records lib table_data) dtypes) as [attributes|e]; simpl;
    [|reflexivity].
  destruct (getitem (frame gdf) "geometry") as [geometry|e]; simpl; [|reflexivity].
  destruct (to_file lib _ _); reflexivity.
Qed.




(* ===================================================================== *)
(** ** The view callback *)
(* ===================================================================== *)

Lemma _clear_fig_annotation (text : string) :
  annotation_texts (Server._clear_fig None text) = [text].
Proof. reflexivity. Qed.

Section ViewFacts.
Variable lib : Library.
Variable w : World.
Variable table_data : list (dict value).

Lemma view_no_selection : Server.display_choropleth lib None table_data w = (Ok idle, w).
Proof. reflexivity. Qed.

Lemma view_no_document (columns : option (list (option string))) :
  data_frame (geo_json_obj w) = None ->
  Server.display_choropleth lib columns table_data w = (Ok idle, w).
Proof.
  intros H. unfold Server.display_choropleth, bind, get_data_frame. rewrite H.
  now destruct columns.
Qed.

Lemma view_not_two (columns : list (option string)) :
  length columns <> 2 ->
  Server.display_choropleth lib (Some columns) table_data w = (Ok idle, w).
Proof.
  intros H. unfold Server.display_choropleth, bind, get_data_frame.
  destruct (data_frame (geo_json_obj w)); [|reflexivity].
  destruct (Nat.eqb_spec (length columns) 2); [contradiction|reflexivity].
Qed.

Lemma view_two (c0 c1 : option string) :
  c0 = None \/ c1 = None \/ c0 = c1 ->
  Server.display_choropleth lib (Some [c0; c1]) table_data w = (Ok idle, w).
Proof.
  intros H. unfold Server.display_choropleth, bind, get_data_frame.
  destruct (data_frame (geo_json_obj w)); [|reflexivity]. simpl.
  destruct c0 as [location|], c1 as [color|]; try reflexivity.
  destruct H as [H|[H|H]]; try discriminate.
  injection H as ->. cbv [Server.item nth]. now rewrite String.eqb_refl.
Qed.

(** The branch that annotates the figure with "You should select only 2
    data keys." is never taken: no input makes the callback return the bare
    figure that branch returns. *)
Lemma view_never_figure_only (columns : option (list (option string))) (fig : Figure) :
  fst (Server.display_choropleth lib columns table_data w) <> Ok (Server.FigureOnly fig).
Proof.
  unfold Server.display_choropleth, bind, get_data_frame, ret.
  destruct columns as [columns|]; [|discriminate].
  destruct (data_frame (geo_json_obj w)) as [gdf|]; [|discriminate]. simpl.
  destruct (Nat.eqb_spec (length columns) 2) as [E|E]; simpl; [|discriminate].
  rewrite E. simpl.
  destruct (Server.item columns 0) as [location|]; [|discriminate].
  destruct (Server.item columns 1) as [color|]; [|discriminate].
  destruct (String.eqb location color); [discriminate|].
  cbv [Server.self lift try_except bind ret raise].
  destruct (Utils.dtypes _); [|discriminate].
  destruct (astype _ _ _); [|discriminate].
  destruct (getitems _ _) as [selected|[]]; try discriminate.
  destruct (to_json _ _) as [text|[]]; try discriminate.
  destruct (json_loads _ _) as [geojson|[]]; try discriminate.
  unfold px_choropleth. destruct (choropleth_error _ _); discriminate.
Qed.

End ViewFacts.

(** C3 (what the code does).  With the sample loaded and its three
    attribute columns selected, the callback answers as it does when idle:
    the figure carries the default prompt, not the text "You should select
    only 2 data keys." that the next test of the callback is there to
    give. *)
Theorem view_three_columns :
  Server.display_choropleth Sample.library
    (Some [Some "name"; Some "pop"; Some "area"]) Sample.countries_grid Sample.loaded_world
    = (Ok idle, Sample.loaded_world) /\
  idle = Server.FigureAndStatus (Server._clear_fig None Server.default_text) "" /\
  annotation_texts (Server._clear_fig None Server.default_text)
    = ["Choose 2 columns and click the view button to compare."] /\
  annotation_texts (Server._clear_fig None Server.default_text)
    <> ["You should select only 2 data keys."].
Proof.
  split; [|split; [reflexivity|split; [reflexivity|discriminate]]].
  apply view_not_two. simpl. lia.
Qed.

(** The same holds of every selection of more than two columns, in every
    state. *)
Lemma view_more_than_two (lib : Library) (w : World) (table_data : list (dict value))
  (columns : list (option string)) :
  2 < length columns ->
  Server.display_choropleth lib (Some columns) table_data w = (Ok idle, w).
Proof. intros H. apply view_not_two. lia. Qed.

(** C4, counterexample.  With the sample loaded and the column "name"
    chosen twice, the figure returned is not bare: it is annotated with the
    default prompt. *)
Lemma view_same_column_annotated :
  exists fig,
    Server.display_choropleth Sample.library (Some [Some "name"; Some "name"])
      Sample.countries_grid Sample.loaded_world
      = (Ok (Server.FigureAndStatus fig ""), Sample.loaded_world) /\
    annotation_texts fig = ["Choose 2 columns and click the view button to compare."] /\
    annotations (layout fig) <> [].
Proof.
  eexists. split; [vm_compute; reflexivity|]. split; [reflexivity|discriminate].
Qed.

(** C4, as amended.  For a selection that is null, has fewer than two
    entries, has a null entry or names a column twice, the view callback
    returns the blank figure annotated with the default prompt ("Choose 2
    columns and click the view button to compare.") together with an empty
    loading text; it leaves the state as it is, so that the same event again
    gives the same answer. *)
Theorem view_idle_selection (lib : Library) (w : World) (table_data : list (dict value))
  (columns : option (list (option string))) :
  idle_selection columns ->
  Server.display_choropleth lib columns table_data w = (Ok idle, w) /\
  annotation_texts (Server._clear_fig None Server.default_text)
    = ["Choose 2 columns and click the view button to compare."] /\
  Server.display_choropleth lib columns table_data
    (snd (Server.display_choropleth lib columns table_data w))
    = Server.display_choropleth lib columns table_data w.
Proof.
  intros H.
  assert (E : Server.display_choropleth lib columns table_data w = (Ok idle, w)).
  { destruct columns as [columns|]; [|apply view_no_selection]. simpl in H.
    destruct (decide (length columns = 2)) as [L|L]; [|now apply view_not_two].
    destruct columns as [|c0 [|c1 [|c2 columns]]]; try discriminate L.
    apply view_two. destruct H as [H|[H|H]].
    - simpl in H. lia.
    - apply elem_of_cons in H as [H|H]; [now left|].
      apply elem_of_cons in H as [H|H]; [now right; left|].
      now apply elem_of_nil in H.
    - right; right. destruct (decide (c0 = c1)) as [|Hne]; [assumption|].
      exfalso. apply H. apply NoDup_cons. split.
      + intros Hin. apply list_elem_of_singleton in Hin. contradiction.
      + apply NoDup_singleton. }
  rewrite E. simpl. rewrite E. auto.
Qed.

Lemma view_idle_selection_witness :
  Server.display_choropleth Sample.library (Some [Some "name"; Some "name"])
    Sample.countries_grid Sample.loaded_world
  = (Ok idle, Sample.loaded_world).
Proof.
  apply (view_idle_selection Sample.library Sample.loaded_world Sample.countries_grid
           (Some [Some "name"; Some "name"])).
  right; right. intros H. apply NoDup_cons in H as [H _]. apply H. left.
Defined.

(** With two different columns of the document chosen, the callback draws
    the map from the grid. *)
Example view_two_columns :
  exists fig,
    fst (Server.display_choropleth Sample.library (Some [Some "name"; Some "pop"])
           Sample.countries_grid Sample.loaded_world)
      = Ok (Server.FigureAndStatus fig "") /\
    map locations (data fig) = ["name"] /\
    map color (data fig) = ["pop"] /\
    map featureidkey (data fig) = ["properties.name"] /\
    annotation_texts fig = [].
Proof. eexists. split; [vm_compute; reflexivity|]. repeat split. Qed.

(** A chosen column the document does not have gives the idle answer. *)
Example view_unknown_column :
  Server.display_choropleth Sample.library (Some [Some "name"; Some "gdp"])
    Sample.countries_grid Sample.loaded_world
  = (Ok idle, Sample.loaded_world).
Proof. vm_compute. reflexivity. Qed.

(* ===================================================================== *)
(** ** Further facts about dictionaries and frames *)
(* ===================================================================== *)

Section DictFacts.
Context {V : Type}.

Lemma keys_set (d : dict V) (k : string) (v : V) (k' : string) :
  k' ∈ keys (set d k v) <-> k' = k \/ k' ∈ keys d.
Proof.
  unfold keys. induction d as [|[k0 v0] d IH]; simpl.
  - rewrite list_elem_of_singleton. split; [auto|]. intros [H|H]; [exact H|].
    now apply elem_of_nil in H.
  - destruct (String.eqb_spec k0 k) as [->|Hne]; simpl.
    + rewrite !elem_of_cons. tauto.
    + rewrite !elem_of_cons, IH. tauto.
Qed.

Lemma set_fresh (d : dict V) (k : string) (v : V) :
  k ∉ keys d -> set d k v = (d ++ [(k, v)])%list.
Proof.
  unfold keys. induction d as [|[k0 v0] d IH]; simpl; intros H; [reflexivity|].
  apply not_elem_of_cons in H as [Hne Hd].
  destruct (String.eqb_spec k0 k) as [->|_]; [contradiction|].
  now rewrite IH.
Qed.

Lemma keys_of_zip (ks : list string) (vs : list V) (k : string) :
  k ∈ keys (of_zip ks vs) -> k ∈ ks.
Proof.
  unfold of_zip.
  assert (G : forall (kvs : list (string * V)) (d : dict V),
             k ∈ keys (fold_left (fun d kv => set d (fst kv) (snd kv)) kvs d) ->
             k ∈ keys d \/ k ∈ map fst kvs).
  { induction kvs as [|[k0 v0] kvs IH]; simpl; intros d H; [now left|].
    destruct (IH _ H) as [H'|H'].
    - apply keys_set in H' as [->|H']; [right; left|now left].
    - right; now right. }
  intros H. destruct (G _ _ H) as [H'|H'].
  - now apply elem_of_nil in H'.
  - clear H G. revert vs H'. induction ks as [|k0 ks IH]; intros [|v vs]; simpl; intros H;
      try now apply elem_of_nil in H.
    apply elem_of_cons in H as [->|H]; [left|right; eauto].
Qed.

(** With distinct keys, [dict(zip(keys, values))] is the list of pairs. *)
Lemma of_zip_NoDup (ks : list string) (vs : list V) :
  NoDup ks -> of_zip ks vs = combine ks vs.
Proof.
  unfold of_zip. intros Hnd.
  assert (G : forall (ks : list string) (vs : list V) (d : dict V),
             NoDup (keys d ++ ks) ->
             fold_left (fun d kv => set d (fst kv) (snd kv)) (combine ks vs) d
             = (d ++ combine ks vs)%list).
  { clear. induction ks as [|k ks IH]; intros vs d H; simpl.
    - now rewrite app_nil_r.
    - destruct vs as [|v vs]; simpl; [now rewrite app_nil_r|].
      rewrite set_fresh.
      + rewrite IH.
        * now rewrite <- app_assoc.
        * unfold keys in *. rewrite map_app. simpl. rewrite <- app_assoc. exact H.
      + apply NoDup_app in H as (_ & H & _). intros Hin. apply (H k Hin). left. }
  now rewrite G.
Qed.

Lemma get_map_pair (f : string -> V) (ks : list string) (k : string) :
  k ∈ ks -> get (map (fun c => (c, f c)) ks) k = Some (f k).
Proof.
  induction ks as [|k0 ks IH]; simpl; intros H; [now apply elem_of_nil in H|].
  destruct (String.eqb_spec k0 k) as [->|Hne]; [reflexivity|].
  apply elem_of_cons in H as [H|H]; [congruence|auto].
Qed.

End DictFacts.

Lemma first_seen_elem_of (seen ks : list string) (k : string) :
  k ∈ first_seen seen ks <-> k ∈ ks /\ k ∉ seen.
Proof.
  revert seen. induction ks as [|k0 ks IH]; intros seen; simpl.
  - split; [intros H; now apply elem_of_nil in H|intros [H _]; now apply elem_of_nil in H].
  - case_bool_decide as Hs.
    + rewrite IH, elem_of_cons. split; [tauto|]. intros [[->|H] Hn]; [contradiction|auto].
    + rewrite !elem_of_cons, IH, not_elem_of_cons. split.
      * intros [->|(H & Hne & Hn)]; auto.
      * intros [[->|H] Hn]; [now left|].
        destruct (decide (k = k0)) as [->|Hne]; [now left|right; auto].
Qed.

Lemma first_seen_all_seen (seen ks : list string) :
  (forall k, k ∈ ks -> k ∈ seen) -> first_seen seen ks = [].
Proof.
  revert seen. induction ks as [|k0 ks IH]; intros seen H; simpl; [reflexivity|].
  rewrite bool_decide_eq_true_2 by (apply H; left).
  apply IH. intros k Hk. apply H. now right.
Qed.

Lemma first_seen_NoDup_app (seen ks rest : list string) :
  NoDup ks -> (forall k, k ∈ ks -> k ∉ seen) ->
  first_seen seen (ks ++ rest) = (ks ++ first_seen (rev ks ++ seen) rest)%list.
Proof.
  revert seen. induction ks as [|k0 ks IH]; intros seen Hnd Hseen; simpl; [reflexivity|].
  apply NoDup_cons in Hnd as [Hk0 Hnd].
  rewrite bool_decide_eq_false_2 by (apply Hseen; left).
  rewrite IH.
  - now rewrite <- app_assoc.
  - exact Hnd.
  - intros k Hk. apply not_elem_of_cons. split.
    + intros ->. contradiction.
    + apply Hseen. now right.
Qed.

Lemma elem_of_concat_keys (records : list (dict value)) (k : string) :
  k ∈ concat (map keys records) <-> exists r, r ∈ records /\ k ∈ keys r.
Proof.
  induction records as [|r records IH]; simpl.
  - split; [intros H; now apply elem_of_nil in H|].
    intros (r & H & _). now apply elem_of_nil in H.
  - rewrite elem_of_app, IH. split.
    + intros [H|(r' & Hr & Hk)]; [exists r; split; [left|exact H]|].
      exists r'. split; [now right|exact Hk].
    + intros (r' & Hr & Hk). apply elem_of_cons in Hr as [->|Hr]; [now left|].
      right. eauto.
Qed.

(** The keys of a grid are those of its rows, each once. *)
Lemma record_keys_elem_of (records : list (dict value)) (k : string) :
  k ∈ record_keys records <-> exists r, r ∈ records /\ k ∈ keys r.
Proof.
  unfold record_keys. rewrite first_seen_elem_of, elem_of_concat_keys.
  split; [tauto|]. intros H. split; [exact H|apply not_elem_of_nil].
Qed.

Section FrameFacts.
Variable df : DataFrame.

Lemma find_col_None (cs : list (string * Series)) (c : string) :
  c ∉ map fst cs -> find_col cs c = None.
Proof.
  induction cs as [|[c' s'] cs IH]; simpl; intros H; [reflexivity|].
  apply not_elem_of_cons in H as [Hne H].
  destruct (String.eqb_spec c' c); [congruence|auto].
Qed.

Lemma getitem_missing (c : string) : c ∉ columns df -> getitem df c = Raise (KeyError c).
Proof. intros H. unfold getitem. now rewrite find_col_None. Qed.

Lemma getitem_col_of (c : string) : c ∈ columns df -> getitem df c = Ok (col_of df c).
Proof.
  intros H. unfold getitem, col_of.
  now destruct (find_col_elem_of (cols df) c H) as [s ->].
Qed.

Lemma getitems_col_of (cs : list string) :
  (forall c, c ∈ cs -> c ∈ columns df) ->
  getitems df cs
  = Ok {| index := index df; cols := map (fun c => (c, col_of df c)) cs |}.
Proof.
  intros H. unfold getitems.
  assert (E : rmapM (fun c => rbind (getitem df c) (fun s => Ok (c, s))) cs
              = Ok (map (fun c => (c, col_of df c)) cs)).
  { induction cs as [|c cs IH]; simpl; [reflexivity|].
    rewrite getitem_col_of by (apply H; left). simpl.
    rewrite IH by (intros; apply H; now right). reflexivity. }
  now rewrite E.
Qed.

(** Selecting stops at the first name that is not a column. *)
Lemma getitems_missing (cs : list string) :
  (exists c, c ∈ cs /\ ~ c ∈ columns df) ->
  exists k, k ∈ cs /\ ~ k ∈ columns df /\ getitems df cs = Raise (KeyError k).
Proof.
  unfold getitems. induction cs as [|c cs IH]; intros (c' & Hin & Hout).
  - now apply elem_of_nil in Hin.
  - simpl. destruct (decide (c ∈ columns df)) as [Hc|Hc].
    + rewrite getitem_col_of by exact Hc. simpl.
      destruct IH as (k & Hk & Hkout & E).
      * apply elem_of_cons in Hin as [->|Hin]; [contradiction|eauto].
      * exists k. split; [now right|split; [exact Hkout|]].
        destruct (rmapM _ cs) as [sel|e]; simpl in *; [discriminate|exact E].
    + exists c. split; [left|split; [exact Hc|]].
      now rewrite getitem_missing.
Qed.

Lemma rows_selected (lib : Library) (cs : list string) :
  rows lib {| index := index df; cols := map (fun c => (c, col_of df c)) cs |}
  = map (fun i => map (fun c => interleave lib (selected_dtypes df cs)
                                  (nth i (values (col_of df c)) VNone)) cs)
        (seq 0 (index df)).
Proof.
  unfold rows, row, selected_dtypes. simpl. apply map_ext. intros i.
  now rewrite !map_map.
Qed.

End FrameFacts.

Lemma map_nth_seq {A} (l : list A) (d : A) :
  map (fun i => nth i l d) (seq 0 (length l)) = l.
Proof.
  induction l as [|a l IH]; simpl; [reflexivity|].
  f_equal. rewrite <- seq_shift, map_map. exact IH.
Qed.

(** The dtypes mapping of a loaded holder: one entry per non-geometry
    column, holding the dtype of that column. *)
Lemma dtypes_loaded (gdf : GeoDataFrame) :
  exists m,
    Utils.dtypes {| data_frame := Some gdf |} = Ok m /\
    forall c, m !! c =
              if decide (c ∈ Utils.columns {| data_frame := Some gdf |})
              then Some (dtype_of (col_of (frame gdf) c)) else None.
Proof.
  unfold Utils.dtypes, Utils.columns. simpl.
  assert (G : forall (cs : list string) (m0 : gmap string dtype),
             (forall c, c ∈ cs -> c ∈ columns (frame gdf)) ->
             exists m,
               fold_left (fun acc c =>
                            m <~ acc ;;
                            s <~ getitem (frame gdf) c ;;
                            Ok (<[c := dtype_of s]> m)) cs (Ok m0) = Ok m /\
               forall c, m !! c = if decide (c ∈ cs)
                                  then Some (dtype_of (col_of (frame gdf) c))
                                  else m0 !! c).
  { induction cs as [|c0 cs IH]; intros m0 H; simpl.
    - exists m0. split; [reflexivity|]. intros c.
      destruct (decide (c ∈ [])) as [Hc|_]; [now apply elem_of_nil in Hc|reflexivity].
    - rewrite getitem_col_of by (apply H; left). simpl.
      destruct (IH (<[c0 := dtype_of (col_of (frame gdf) c0)]> m0)) as (m & -> & Hm);
        [intros; apply H; now right|].
      exists m. split; [reflexivity|]. intros c. rewrite Hm.
      destruct (decide (c ∈ cs)) as [Hc|Hc].
      + rewrite decide_True by now right. reflexivity.
      + destruct (decide (c = c0)) as [->|Hne].
        * rewrite decide_True by left. apply lookup_insert_eq.
        * rewrite decide_False by (rewrite elem_of_cons; tauto).
          now apply lookup_insert_ne. }
  destruct (G (filter (λ c, c ≠ "geometry") (columns (frame gdf))) ∅) as (m & -> & Hm).
  - intros c Hc. now apply non_geometry_columns in Hc.
  - exists m. split; [reflexivity|]. intros c. rewrite Hm.
    destruct (decide _); [reflexivity|apply lookup_empty].
Qed.

(* ===================================================================== *)
(** ** More on the document holder *)
(* ===================================================================== *)

Lemma dash_data_table_loaded (lib : Library) (gdf : GeoDataFrame) (cs : list string) :
  (forall c, c ∈ cs -> c ∈ columns (frame gdf)) ->
  Utils.dash_data_table_from_dataframe lib {| data_frame := Some gdf |} cs
  = Ok (map (fun i => of_zip cs (map (fun c => interleave lib (selected_dtypes (frame gdf) cs)
                                                 (nth i (values (col_of (frame gdf) c)) VNone)) cs))
            (seq 0 (index (frame gdf)))).
Proof.
  intros H. unfold Utils.dash_data_table_from_dataframe. simpl.
  rewrite getitems_col_of by exact H. simpl.
  now rewrite rows_selected, map_map.
Qed.

Lemma dtypes_keys_are_columns_aux (self : GeoJsonFile) (gdf : GeoDataFrame) :
  data_frame self = Some gdf ->
  exists m,
    Utils.dtypes self = Ok m /\
    forall c, is_Some (m !! c) <-> c ∈ Utils.columns self.
Proof.
  destruct self as [d]. simpl. intros ->.
  destruct (dtypes_loaded gdf) as (m & Hm & Hlook).
  exists m. split; [exact Hm|].
  intros c. rewrite Hlook. destruct (decide _) as [Hc|Hc].
  - split; [intros _; exact Hc|eauto].
  - split; [intros [x Hx]; discriminate|contradiction].
Qed.

Lemma countries_columns_NoDup : NoDup (columns (frame Sample.countries)).
Proof.
  unfold columns. simpl.
  repeat (apply NoDup_cons; split;
          [intros H; apply list_elem_of_In in H; simpl in H; intuition discriminate|]).
  apply NoDup_nil_2.
Qed.

(** X1.  With a dataset loaded whose column names are distinct, the dtypes
    mapping has exactly the names the [columns] accessor lists as keys, each
    bound to the dtype of the column of that name; "geometry" is never a
    key. *)
Theorem dtypes_keys_are_columns (self : GeoJsonFile) (gdf : GeoDataFrame) :
  data_frame self = Some gdf ->
  NoDup (columns (frame gdf)) ->
  exists m,
    Utils.dtypes self = Ok m /\
    (forall c, is_Some (m !! c) <-> c ∈ Utils.columns self) /\
    m !! "geometry" = None /\
    (forall c s, c ∈ Utils.columns self -> getitem (frame gdf) c = Ok s ->
                 m !! c = Some (dtype_of s)).
Proof.
  destruct self as [d]. simpl. intros -> _.
  destruct (dtypes_loaded gdf) as (m & Hm & Hlook).
  exists m. split; [exact Hm|]. split; [|split].
  - intros c. rewrite Hlook. destruct (decide _) as [Hc|Hc].
    + split; [intros _; exact Hc|eauto].
    + split; [intros [x Hx]; discriminate|contradiction].
  - rewrite Hlook. rewrite decide_False; [reflexivity|].
    unfold Utils.columns. simpl. rewrite non_geometry_columns. tauto.
  - intros c s Hc Hs. rewrite Hlook, decide_True by exact Hc.
    unfold Utils.columns in Hc. simpl in Hc. apply non_geometry_columns in Hc as [Hc _].
    rewrite getitem_col_of in Hs by exact Hc. now injection Hs as <-.
Qed.

Lemma dtypes_keys_are_columns_witness :
  exists m,
    Utils.dtypes {| data_frame := Some Sample.countries |} = Ok m /\
    m !! "pop" = Some int64 /\ m !! "name" = Some object_ /\ m !! "geometry" = None.
Proof.
  destruct (dtypes_keys_are_columns {| data_frame := Some Sample.countries |}
              Sample.countries eq_refl countries_columns_NoDup) as (m & Hm & _ & Hg & Hc).
  exists m. split; [exact Hm|]. split; [|split; [|exact Hg]].
  - apply (Hc "pop" {| dtype_of := int64; values := [VInt 19; VInt 33] |});
      [|reflexivity].
    apply list_elem_of_In. vm_compute. tauto.
  - apply (Hc "name" {| dtype_of := object_; values := [VStr "Chile"; VStr "Peru"] |});
      [|reflexivity].
    apply list_elem_of_In. vm_compute. tauto.
Defined.

(** X2.  With a dataset loaded, asking the table of distinct columns of the
    dataset gives one row per row of the dataset; row [i] has the columns
    asked for as its keys, in that order, and under each key the cell of
    that column at position [i], converted as [DataFrame.values] converts
    the cells of columns of these dtypes put side by side. *)
Theorem table_rows_are_dataset_values (lib : Library) (self : GeoJsonFile)
  (gdf : GeoDataFrame) (cs : list string) :
  data_frame self = Some gdf ->
  NoDup cs ->
  (forall c, c ∈ cs -> c ∈ columns (frame gdf)) ->
  exists table,
    Utils.dash_data_table_from_dataframe lib self cs = Ok table /\
    length table = index (frame gdf) /\
    forall i, i < index (frame gdf) ->
      exists line,
        table !! i = Some line /\
        keys line = cs /\
        forall c s, c ∈ cs -> getitem (frame gdf) c = Ok s ->
                    get line c
                    = Some (interleave lib (selected_dtypes (frame gdf) cs)
                              (nth i (values s) VNone)).
Proof.
  destruct self as [d]. simpl. intros -> Hnd Hcs.
  rewrite dash_data_table_loaded by exact Hcs.
  eexists. split; [reflexivity|]. split; [now rewrite length_map, length_seq|].
  intros i Hi. eexists. split.
  - rewrite list_lookup_fmap, lookup_seq_lt by exact Hi. reflexivity.
  - simpl. rewrite of_zip_NoDup by exact Hnd.
    set (cell := fun c => interleave lib (selected_dtypes (frame gdf) cs)
                            (nth i (values (col_of (frame gdf) c)) VNone)).
    assert (E : forall l, combine l (map cell l) = map (fun c => (c, cell c)) l).
    { clear. induction l as [|c l IH]; simpl; [reflexivity|now rewrite IH]. }
    rewrite E. split.
    + unfold keys. rewrite map_map. simpl. apply map_id.
    + intros c s Hc Hs. rewrite getitem_col_of in Hs by auto. injection Hs as <-.
      now rewrite (get_map_pair cell).
Qed.

Lemma table_rows_are_dataset_values_witness :
  Utils.dash_data_table_from_dataframe Sample.library
    {| data_frame := Some Sample.countries |} ["pop"; "name"]
  = Ok [ [("pop", VInt 19); ("name", VStr "Chile")];
         [("pop", VInt 33); ("name", VStr "Peru")] ].
Proof.
  destruct (table_rows_are_dataset_values Sample.library
              {| data_frame := Some Sample.countries |}
              Sample.countries ["pop"; "name"] eq_refl) as (table & E & _).
  - apply NoDup_cons. split; [|apply NoDup_singleton].
    intros H. apply list_elem_of_singleton in H. discriminate.
  - intros c Hc. apply list_elem_of_In. apply list_elem_of_In in Hc.
    simpl in *. intuition.
  - reflexivity.
Defined.

(** X3.  Asking the table of a name the dataset has no column for raises
    [KeyError] on a name that is asked for and is not a column. *)
Theorem table_of_missing_column (lib : Library) (self : GeoJsonFile) (gdf : GeoDataFrame)
  (cs : list string) (c : string) :
  data_frame self = Some gdf ->
  c ∈ cs -> ~ c ∈ columns (frame gdf) ->
  exists k,
    k ∈ cs /\ ~ k ∈ columns (frame gdf) /\
    Utils.dash_data_table_from_dataframe lib self cs = Raise (KeyError k).
Proof.
  destruct self as [d]. simpl. intros -> Hc Hout.
  destruct (getitems_missing (frame gdf) cs) as (k & Hk & Hkout & E); [eauto|].
  exists k. split; [exact Hk|split; [exact Hkout|]].
  unfold Utils.dash_data_table_from_dataframe. simpl. now rewrite E.
Qed.

Lemma table_of_missing_column_witness :
  Utils.dash_data_table_from_dataframe Sample.library
    {| data_frame := Some Sample.countries |} ["name"; "gdp"]
  = Raise (KeyError "gdp").
Proof.
  destruct (table_of_missing_column Sample.library
              {| data_frame := Some Sample.countries |} Sample.countries ["name"; "gdp"] "gdp" eq_refl) as (k & _ & _ & E).
  - right; left.
  - intros H. apply list_elem_of_In in H. vm_compute in H. intuition discriminate.
  - reflexivity.
Defined.

(** X4.  With a dataset loaded, the edit view is the instruction line, a
    break and an editable table with id "table"; the table has one column
    descriptor (name and id alike) per non-geometry column, one row per row
    of the dataset, and no row has a key that is not such a column: the
    geometry never reaches the grid. *)
Theorem to_viewbox_loaded (lib : Library) (self : GeoJsonFile) (gdf : GeoDataFrame) :
  data_frame self = Some gdf ->
  exists table,
    Utils.to_viewbox lib self
    = Ok [ P "To edit: click cells, adjust and press enter" None []; Br;
           DataTable "table"
             (Some (map (fun c => {| col_name := c; col_id := c |}) (Utils.columns self)))
             (Some table) true ] /\
    length table = index (frame gdf) /\
    forall line k, line ∈ table -> k ∈ keys line ->
                   k ∈ columns (frame gdf) /\ k <> "geometry".
Proof.
  destruct self as [d]. simpl. intros ->.
  unfold Utils.to_viewbox, Utils.columns. simpl.
  rewrite dash_data_table_loaded
    by (intros c Hc; now apply non_geometry_columns in Hc).
  simpl. eexists. split; [reflexivity|]. split.
  - now rewrite length_map, length_seq.
  - intros line k Hline Hk. apply list_elem_of_fmap in Hline as (i & -> & _).
    apply keys_of_zip in Hk. now apply non_geometry_columns in Hk.
Qed.

Lemma to_viewbox_loaded_witness :
  exists table,
    Utils.to_viewbox Sample.library {| data_frame := Some Sample.countries |}
    = Ok [ P "To edit: click cells, adjust and press enter" None []; Br;
           DataTable "table"
             (Some [ {| col_name := "name"; col_id := "name" |};
                     {| col_name := "pop"; col_id := "pop" |};
                     {| col_name := "area"; col_id := "area" |} ])
             (Some table) true ] /\
    length table = 2.
Proof.
  destruct (to_viewbox_loaded Sample.library {| data_frame := Some Sample.countries |}
              Sample.countries eq_refl) as (table & E & L & _).
  exists table. split; [exact E|exact L].
Defined.

(* ===================================================================== *)
(** ** More on the loader *)
(* ===================================================================== *)

(** X5.  The loader reads at most once and touches nothing else: either it
    raises before reading and leaves the world as it was, or it calls the
    file-reading primitive once and returns or raises what that call does. *)
Theorem load_geojson_reads_once (lib : Library) (inp_path upload_content : option string)
  (w : World) :
  (exists error, Utils.load_geojson lib inp_path upload_content w = (Raise error, w)) \/
  (exists content,
     Utils.load_geojson lib inp_path upload_content w
     = (read_file lib content, after_read w content)).
Proof.
  unfold Utils.load_geojson, bind, ret, emit, lift, after_read.
  destruct inp_path as [p|]; simpl.
  - destruct (urlparse lib (strip lib p)) as [parsed|e]; simpl; [|left; eauto].
    destruct (negb (truthy (netloc parsed)) && negb (truthy (scheme parsed))); simpl;
      [|right; eauto].
    destruct (absolute_path lib (strip lib p)) as [path|e]; simpl; [right|left]; eauto.
  - destruct upload_content as [u|]; simpl; [|right; eauto].
    destruct (Utils.read_upload_content lib u) as [text|e]; simpl; [right|left]; eauto.
Qed.

(** An upload that cannot be decoded is not read. *)
Lemma load_geojson_decode_error (lib : Library) (upload_content : string)
  (error : exn) (w : World) :
  Utils.read_upload_content lib upload_content = Raise error ->
  Utils.load_geojson lib None (Some upload_content) w = (Raise error, w).
Proof.
  intros H. unfold Utils.load_geojson, bind, ret, emit, lift. simpl. now rewrite H.
Qed.

(** X7.  How a path or URL is resolved: the text is stripped; when it has
    neither a scheme nor a host it is read as a file path made absolute,
    otherwise it is read as it is.  An upload given along with it is not
    looked at. *)
Theorem load_geojson_resolution (lib : Library) (w : World) (inp_path : string)
  (upload_content : option string) (parsed : ParseResult) :
  urlparse lib (strip lib inp_path) = Ok parsed ->
  (netloc parsed = "" -> scheme parsed = "" ->
   forall path, absolute_path lib (strip lib inp_path) = Ok path ->
     Utils.load_geojson lib (Some inp_path) upload_content w
     = (read_file lib (Str path), after_read w (Str path))) /\
  (netloc parsed <> "" \/ scheme parsed <> "" ->
   Utils.load_geojson lib (Some inp_path) upload_content w
   = (read_file lib (Str (strip lib inp_path)), after_read w (Str (strip lib inp_path)))).
Proof.
  intros Hp. split.
  - intros Hn Hs path Ha. now apply (load_geojson_path lib w inp_path _ parsed).
  - intros H. apply (load_geojson_url lib w inp_path _ parsed); [exact Hp|].
    destruct (netloc parsed), (scheme parsed); simpl; try reflexivity.
    destruct H; congruence.
Qed.

Lemma load_geojson_resolution_witness :
  Utils.load_geojson Sample.library (Some "  ~/maps/countries.geojson ")
    (Some "data:,aGk=") initial_world
  = (Raise (LibraryError "No such file or directory"),
     after_read initial_world (Str "/home/user/maps/countries.geojson"))
  /\
  Utils.load_geojson Sample.library (Some " https://example.org/countries.geojson")
    None initial_world
  = (Ok Sample.countries,
     after_read initial_world (Str "https://example.org/countries.geojson")).
Proof.
  split.
  - destruct (load_geojson_resolution Sample.library initial_world
                "  ~/maps/countries.geojson " (Some "data:,aGk=")
                {| scheme := ""; netloc := "" |} eq_refl) as [H _].
    exact (H eq_refl eq_refl "/home/user/maps/countries.geojson" eq_refl).
  - destruct (load_geojson_resolution Sample.library initial_world
                " https://example.org/countries.geojson" None
                {| scheme := "https"; netloc := "example.org" |} eq_refl) as [_ H].
    apply H. left. discriminate.
Defined.

(* ===================================================================== *)
(** ** More on the load/reset callback *)
(* ===================================================================== *)

(** The callback ends in one of two ways: with the start-up answer, the
    world untouched, or with the answer built from the holder it leaves. *)
Lemma create_columns_cases (lib : Library) (triggered_id geojson_file upload_content : option string)
  (w : World) :
  (geojson_file = None /\ upload_content = None /\
   Server.create_columns lib triggered_id geojson_file upload_content w
   = (startup_response lib (geo_json_obj w), w)) \/
  (exists self status_msg trace,
     Server.create_columns lib triggered_id geojson_file upload_content w
     = (response lib self status_msg
          (if eq_str triggered_id "load-button" || bool_decide (upload_content = None)
           then geojson_file else None),
        {| geo_json_obj := self; events := trace |})).
Proof.
  destruct geojson_file as [g|], upload_content as [u|];
    try (left; repeat split; apply create_columns_startup); right.
  - rewrite create_columns_load by (right; discriminate).
    destruct (eq_str triggered_id "load-button"); cbv beta iota.
    + destruct (Utils.load_geojson lib (Some g) None (cleared w)) as [[df|e] w1];
        simpl; eexists _, _, _; reflexivity.
    + destruct (Utils.load_geojson lib None (Some u) (cleared w)) as [[df|e] w1];
        simpl; eexists _, _, _; reflexivity.
  - destruct (eq_str triggered_id "load-button") eqn:Ht.
    + rewrite create_columns_load by auto. rewrite Ht.
      destruct (Utils.load_geojson lib (Some g) None (cleared w)) as [[df|e] w1];
        simpl; eexists _, _, _; reflexivity.
    + rewrite create_columns_no_load by exact Ht. destruct w as [obj trace]. simpl.
      eexists _, _, _; reflexivity.
  - rewrite create_columns_load by (right; discriminate).
    destruct (eq_str triggered_id "load-button"); cbv beta iota.
    + destruct (Utils.load_geojson lib None None (cleared w)) as [[df|e] w1];
        simpl; eexists _, _, _; reflexivity.
    + destruct (Utils.load_geojson lib None (Some u) (cleared w)) as [[df|e] w1];
        simpl; eexists _, _, _; reflexivity.
Qed.

Lemma to_viewbox_table (lib : Library) (self : GeoJsonFile) :
  exists line columns data editable,
    Utils.to_viewbox lib self = Ok [line; Br; DataTable "table" columns data editable].
Proof.
  destruct self as [[gdf|]].
  - destruct (to_viewbox_Ok lib {| data_frame := Some gdf |}) as [v E].
    unfold Utils.to_viewbox in *. simpl in *.
    destruct (Utils.dash_data_table_from_dataframe _ _) as [data|e]; simpl in *;
      [|discriminate].
    eauto.
  - unfold Utils.to_viewbox. simpl. eauto.
Qed.

(** X8.  The load/reset callback never raises, whatever its inputs, the
    state and the library: a failing load is caught.  Its answer always
    holds a fresh placeholder figure in a graph with id "graph" and an edit
    view ending in a table with id "table", the two components the other
    callbacks read and write. *)
Theorem create_columns_never_raises (lib : Library)
  (triggered_id geojson_file upload_content : option string) (w : World) :
  exists out w',
    Server.create_columns lib triggered_id geojson_file upload_content w = (Ok out, w') /\
    Server.graph_box_children out
      = [Graph "graph" (Server._clear_fig None Server.default_text)] /\
    exists line columns data editable,
      Server.table_box_children out = [line; Br; DataTable "table" columns data editable].
Proof.
  destruct (create_columns_cases lib triggered_id geojson_file upload_content w)
    as [(_ & _ & E)|(self & status_msg & trace & E)]; rewrite E.
  - unfold startup_response.
    destruct (to_viewbox_table lib (geo_json_obj w)) as (l & c & d & ed & ->). simpl.
    eexists _, _. split; [reflexivity|]. simpl. split; [reflexivity|eauto].
  - unfold response.
    destruct (to_viewbox_table lib self) as (l & c & d & ed & ->). simpl.
    eexists _, _. split; [reflexivity|]. simpl. split; [reflexivity|eauto].
Qed.

(** X9.  After every run of the load/reset callback the save and reset
    buttons are in the same state; they are enabled only when a document is
    held, and columns are offered only when they are enabled, in which case
    the columns are those of the document held. *)
Theorem buttons_follow_document (lib : Library)
  (triggered_id geojson_file upload_content : option string) (w w' : World)
  (out : Server.ColumnsOutput) :
  Server.create_columns lib triggered_id geojson_file upload_content w = (Ok out, w') ->
  Server.save_button_disabled out = Server.reset_button_disabled out /\
  (Server.reset_button_disabled out = false ->
   data_frame (geo_json_obj w') <> None /\
   Server.column1_options out = Utils.columns (geo_json_obj w')) /\
  (Server.column1_options out <> [] -> Server.reset_button_disabled out = false).
Proof.
  intros Hrun.
  destruct (create_columns_cases lib triggered_id geojson_file upload_content w)
    as [(_ & _ & E)|(self & status_msg & trace & E)]; rewrite E in Hrun;
    injection Hrun as Hr <-.
  - unfold startup_response in Hr.
    destruct (Utils.to_viewbox lib (geo_json_obj w)); simpl in Hr; [|discriminate].
    injection Hr as <-. simpl. repeat split; try discriminate; congruence.
  - apply response_inv in Hr as (Hc & Hr & Hs). rewrite Hc, Hr, Hs.
    split; [reflexivity|]. unfold Utils.columns. simpl.
    destruct (data_frame self); simpl; split; try congruence.
    intros _. split; [discriminate|reflexivity].
Qed.

Lemma buttons_follow_document_witness :
  data_frame (geo_json_obj world_after_load) <> None /\
  Utils.columns (geo_json_obj world_after_load) = ["name"; "pop"; "area"].
Proof.
  destruct (buttons_follow_document Sample.library (Some "load-button")
              (Some "countries.geojson") None initial_world world_after_load
              _ eq_refl) as (_ & H & _).
  destruct (H eq_refl) as [Hd Hc]. split; [exact Hd|]. rewrite <- Hc. reflexivity.
Defined.

(** X10.  A load that fails empties the document, whatever was held before:
    the error is logged, the status reads "Error: Could not load data
    content", no column is offered, both buttons are disabled and the edit
    view is back to its placeholder.  The URL text is echoed when the load
    button fired the callback, and cleared otherwise. *)
Theorem failed_load_empties_document (lib : Library)
  (triggered_id geojson_file upload_content : option string) (w w1 : World) (error : exn) :
  geojson_file <> None \/ upload_content <> None ->
  eq_str triggered_id "load-button" = true \/ upload_content <> None ->
  (if eq_str triggered_id "load-button"
   then Utils.load_geojson lib geojson_file None (cleared w)
   else Utils.load_geojson lib None upload_content (cleared w)) = (Raise error, w1) ->
  Server.create_columns lib triggered_id geojson_file upload_content w
  = (Ok {| Server.column1_options := [];
           Server.loading1_children :=
             P "Error: Could not load data content" (Some "load-status") [("color", "red")];
           Server.table_box_children :=
             [ P "Load geojson file in the display tab first" None [("color", "red")];
               Br; DataTable "table" None None false ];
           Server.reset_button_disabled := true;
           Server.save_button_disabled := true;
           Server.geojson_file_value :=
             if eq_str triggered_id "load-button" then or_empty geojson_file else "";
           Server.graph_box_children :=
             [Graph "graph" (Server._clear_fig None Server.default_text)] |},
     {| geo_json_obj := {| data_frame := None |};
        events := events w1 ++ [LoggerError error] |}).
Proof.
  intros Hin Hload Hfail. rewrite create_columns_load by assumption.
  destruct (eq_str triggered_id "load-button"); rewrite Hfail; reflexivity.
Qed.

Lemma failed_load_empties_document_witness :
  exists out w',
    Server.create_columns Sample.library (Some "load-button") (Some "nowhere.geojson")
      None world_after_load = (Ok out, w') /\
    data_frame (geo_json_obj w') = None /\
    Server.column1_options out = [] /\
    Server.save_button_disabled out = true.
Proof.
  eexists _, _. split.
  - apply (failed_load_empties_document Sample.library (Some "load-button")
             (Some "nowhere.geojson") None world_after_load
             (after_read (cleared world_after_load) (Str "/srv/app/nowhere.geojson"))
             (LibraryError "No such file or directory")).
    + left. discriminate.
    + left. reflexivity.
    + reflexivity.
  - simpl. repeat split.
Defined.

(** X11.  A load replaces the document wholesale: when the callback loads
    (the load button fired it, or an upload is present), its answer and the
    document it leaves do not depend on the document held before. *)
Theorem load_replaces_document (lib : Library)
  (triggered_id geojson_file upload_content : option string) (w : World)
  (previous : GeoJsonFile) :
  geojson_file <> None \/ upload_content <> None ->
  eq_str triggered_id "load-button" = true \/ upload_content <> None ->
  Server.create_columns lib triggered_id geojson_file upload_content
    {| geo_json_obj := previous; events := events w |}
  = Server.create_columns lib triggered_id geojson_file upload_content w.
Proof.
  intros Hin Hload. now rewrite !create_columns_load by assumption.
Qed.

Lemma load_replaces_document_witness :
  Server.create_columns Sample.library (Some "load-button") (Some "countries.geojson") None
    {| geo_json_obj := {| data_frame := Some Sample.countries |}; events := [] |}
  = Server.create_columns Sample.library (Some "load-button") (Some "countries.geojson") None
      initial_world.
Proof.
  apply (load_replaces_document Sample.library (Some "load-button")
           (Some "countries.geojson") None initial_world).
  - left. discriminate.
  - left. reflexivity.
Defined.

(** X12.  What the callback writes back into the URL field: the text it was
    given when the load button fired it or no upload is present (the empty
    text for a null one), and the empty text when it loaded from an
    upload. *)
Theorem url_field_echo (lib : Library)
  (triggered_id geojson_file upload_content : option string) (w w' : World)
  (out : Server.ColumnsOutput) :
  Server.create_columns lib triggered_id geojson_file upload_content w = (Ok out, w') ->
  Server.geojson_file_value out
  = if eq_str triggered_id "load-button" || bool_decide (upload_content = None)
    then or_empty geojson_file else "".
Proof.
  intros Hrun.
  destruct (create_columns_cases lib triggered_id geojson_file upload_content w)
    as [(-> & -> & E)|(self & status_msg & trace & E)]; rewrite E in Hrun;
    injection Hrun as Hr _.
  - unfold startup_response in Hr.
    destruct (Utils.to_viewbox lib (geo_json_obj w)); simpl in Hr; [|discriminate].
    injection Hr as <-. simpl. now rewrite orb_true_r.
  - destruct (response_Ok lib self status_msg
                (if eq_str triggered_id "load-button" || bool_decide (upload_content = None)
                 then geojson_file else None)) as (out' & E' & _ & _ & _ & Hu).
    rewrite E' in Hr. injection Hr as <-. rewrite Hu.
    now destruct (eq_str triggered_id "load-button" || bool_decide (upload_content = None)).
Qed.

Lemma url_field_echo_witness :
  exists out w',
    Server.create_columns Sample.library (Some "upload") (Some "countries.geojson")
      (Some "data:application/geo+json;base64,Y291bnRyaWVz") initial_world = (Ok out, w') /\
    Server.geojson_file_value out = "".
Proof.
  eexists _, _. split; [vm_compute; reflexivity|].
  apply (url_field_echo Sample.library (Some "upload") (Some "countries.geojson")
           (Some "data:application/geo+json;base64,Y291bnRyaWVz") initial_world _ _ eq_refl).
Defined.

(** X13.  Pressing reset right after a load by URL that succeeded gives the
    answer the load gave, and changes nothing: the columns, the buttons and
    the edit view are rebuilt from the document as loaded, which is how
    edits typed into the grid are dropped. *)
Theorem reset_after_load_repeats_answer (lib : Library) (triggered_id : option string)
  (geojson_file : string) (upload_content : option string) (w w1 : World)
  (out : Server.ColumnsOutput) :
  eq_str triggered_id "load-button" = false ->
  Server.create_columns lib (Some "load-button") (Some geojson_file) upload_content w
    = (Ok out, w1) ->
  data_frame (geo_json_obj w1) <> None ->
  Server.create_columns lib triggered_id (Some geojson_file) None w1 = (Ok out, w1).
Proof.
  intros Ht Hrun Hdoc.
  rewrite create_columns_load in Hrun by (auto; left; discriminate). simpl in Hrun.
  rewrite create_columns_no_load by exact Ht.
  destruct (Utils.load_geojson lib (Some geojson_file) None (cleared w)) as [[df|e] w0];
    simpl in Hrun; injection Hrun as Hr <-; simpl in *; [|congruence].
  now rewrite Hr.
Qed.

Lemma reset_after_load_repeats_answer_witness :
  Server.create_columns Sample.library (Some "reset-button") (Some "countries.geojson")
    None world_after_load
  = (fst (Server.create_columns Sample.library (Some "load-button")
            (Some "countries.geojson") None initial_world),
     world_after_load).
Proof.
  rewrite (reset_after_load_repeats_answer Sample.library (Some "reset-button")
             "countries.geojson" None initial_world world_after_load _ eq_refl eq_refl).
  - reflexivity.
  - discriminate.
Defined.

(** X14.  Unless the load button fired it or an upload is present, the
    callback reads no file, logs nothing and leaves the document as it
    is. *)
Theorem no_load_no_effect (lib : Library) (triggered_id geojson_file : option string)
  (w : World) :
  eq_str triggered_id "load-button" = false ->
  snd (Server.create_columns lib triggered_id geojson_file None w) = w.
Proof.
  intros Ht. destruct geojson_file as [g|].
  - now rewrite create_columns_no_load.
  - now rewrite create_columns_startup.
Qed.

Lemma no_load_no_effect_witness :
  snd (Server.create_columns Sample.library (Some "reset-button") (Some "anything") None
         world_after_load) = world_after_load.
Proof. apply no_load_no_effect. reflexivity. Defined.

(* ===================================================================== *)
(** ** More on the view callback *)
(* ===================================================================== *)

(** The steps of the view callback once the selection is two different
    names and a document is held. *)
Lemma view_two_names (lib : Library) (w : World) (gdf : GeoDataFrame)
  (table_data : list (dict value)) (location color : string) :
  data_frame (geo_json_obj w) = Some gdf ->
  location <> color ->
  Server.display_choropleth lib (Some [Some location; Some color]) table_data w
  = match (dtypes <~ Utils.dtypes (geo_json_obj w) ;;
           astype lib (of_records lib table_data) dtypes) with
    | Raise error => (Raise error, w)
    | Ok data_frame =>
        match shapes lib gdf location color with
        | Ok geojson =>
            match choropleth_error lib
                    (choropleth_trace data_frame geojson location color) with
            | Some error => (Raise error, w)
            | None =>
                (Ok (Server.FigureAndStatus
                       (choropleth_figure data_frame geojson location color) ""), w)
            end
        | Raise (KeyError _) => (Ok idle, w)
        | Raise error => (Raise error, w)
        end
    end.
Proof.
  intros Hdoc Hne. unfold Server.display_choropleth, shapes.
  cbv [bind get_data_frame Server.self lift ret raise try_except]. rewrite Hdoc. simpl.
  destruct (String.eqb_spec location color) as [|_]; [contradiction|].
  destruct (Utils.dtypes (geo_json_obj w)) as [dtypes|e]; simpl; [|reflexivity].
  destruct (astype lib (of_records lib table_data) dtypes) as [data|e]; simpl;
    [|reflexivity].
  destruct (getitems (frame gdf) [color; location; "geometry"]) as [selected|[]];
    simpl; try reflexivity.
  destruct (to_json lib _) as [text|[]]; simpl; try reflexivity.
  destruct (json_loads lib text) as [geojson|[]]; simpl; try reflexivity.
  unfold px_choropleth, choropleth_trace.
  destruct (choropleth_error lib _); reflexivity.
Qed.

(** X15.  The view callback only looks: whatever the selection, the grid
    and the state, it leaves the document and the trace as they are. *)
Theorem view_leaves_world (lib : Library) (columns : option (list (option string)))
  (table_data : list (dict value)) (w : World) :
  snd (Server.display_choropleth lib columns table_data w) = w.
Proof.
  destruct columns as [columns|]; [|reflexivity].
  destruct (data_frame (geo_json_obj w)) as [gdf|] eqn:Hdoc;
    [|now rewrite view_no_document].
  destruct (decide (length columns = 2)) as [L|L]; [|now rewrite view_not_two].
  destruct columns as [|c0 [|c1 [|c2 columns]]]; try discriminate L.
  destruct c0 as [location|]; [|now rewrite view_two by auto].
  destruct c1 as [color|]; [|now rewrite view_two by auto].
  destruct (decide (location = color)) as [->|Hne]; [now rewrite view_two by auto|].
  rewrite (view_two_names lib w gdf) by assumption.
  destruct (dtypes <~ Utils.dtypes (geo_json_obj w);;
            astype lib (of_records lib table_data) dtypes) as [data|e]; [|reflexivity].
  destruct (shapes lib gdf location color) as [geojson|[]]; try reflexivity.
  destruct (choropleth_error lib _); reflexivity.
Qed.

(** X16.  What the view callback can answer: the idle figure, or a map
    without annotation, each with an empty loading text.  No input makes it
    show "You should select only 2 data keys." or "Columns must be
    different". *)
Theorem view_answers (lib : Library) (columns : option (list (option string)))
  (table_data : list (dict value)) (w : World) (out : Server.ViewOutput) :
  fst (Server.display_choropleth lib columns table_data w) = Ok out ->
  out = idle \/
  exists data_frame geojson location color,
    out = Server.FigureAndStatus (choropleth_figure data_frame geojson location color) "".
Proof.
  destruct columns as [columns|]; [|intros [= <-]; now left].
  destruct (data_frame (geo_json_obj w)) as [gdf|] eqn:Hdoc;
    [|rewrite view_no_document by exact Hdoc; intros [= <-]; now left].
  destruct (decide (length columns = 2)) as [L|L];
    [|rewrite view_not_two by exact L; intros [= <-]; now left].
  destruct columns as [|c0 [|c1 [|c2 columns]]]; try discriminate L.
  destruct c0 as [location|]; [|rewrite view_two by auto; intros [= <-]; now left].
  destruct c1 as [color|]; [|rewrite view_two by auto; intros [= <-]; now left].
  destruct (decide (location = color)) as [->|Hne];
    [rewrite view_two by auto; intros [= <-]; now left|].
  rewrite (view_two_names lib w gdf) by assumption.
  destruct (dtypes <~ Utils.dtypes (geo_json_obj w);;
            astype lib (of_records lib table_data) dtypes) as [data|e];
    [|discriminate].
  destruct (shapes lib gdf location color) as [geojson|[]];
    simpl; try discriminate; [|intros [= <-]; now left].
  destruct (choropleth_error lib _); simpl; [discriminate|].
  intros [= <-]. right; eauto.
Qed.

Lemma view_answers_witness :
  exists out,
    fst (Server.display_choropleth Sample.library (Some [Some "name"; Some "pop"])
           Sample.countries_grid Sample.loaded_world) = Ok out /\
    (out = idle \/
     exists data_frame geojson location color,
       out = Server.FigureAndStatus
               (choropleth_figure data_frame geojson location color) "").
Proof.
  eexists. split; [vm_compute; reflexivity|].
  apply (view_answers Sample.library (Some [Some "name"; Some "pop"])
           Sample.countries_grid Sample.loaded_world).
  vm_compute. reflexivity.
Defined.

(** X17.  With a document held, two different names chosen that are columns
    of the document, a geometry column in the document and a grid that can
    be cast to the document's dtypes, the callback selects the two chosen
    columns and the geometry of the document, in the order colour, location,
    geometry.  When the libraries turn that selection into a feature
    collection and accept the arguments, it draws the map: shapes from the
    document, values from the grid as cast, shapes keyed by the first name,
    coloured by the second.  When one of them raises anything but a
    [KeyError] on the way to the feature collection (as happens when
    "geometry" itself is one of the two names), the callback raises it. *)
Theorem view_draws_map (lib : Library) (w : World) (gdf : GeoDataFrame)
  (table_data : list (dict value)) (location color : string)
  (dtypes : gmap string dtype) (data_frame_cast : DataFrame) :
  data_frame (geo_json_obj w) = Some gdf ->
  location <> color ->
  location ∈ columns (frame gdf) ->
  color ∈ columns (frame gdf) ->
  "geometry" ∈ columns (frame gdf) ->
  Utils.dtypes (geo_json_obj w) = Ok dtypes ->
  astype lib (of_records lib table_data) dtypes = Ok data_frame_cast ->
  let selected :=
    {| frame := {| index := index (frame gdf);
                   cols := [ (color, col_of (frame gdf) color);
                             (location, col_of (frame gdf) location);
                             ("geometry", col_of (frame gdf) "geometry") ] |};
       crs := crs gdf |} in
  (forall text geojson,
     to_json lib selected = Ok text ->
     json_loads lib text = Ok geojson ->
     choropleth_error lib (choropleth_trace data_frame_cast geojson location color) = None ->
     Server.display_choropleth lib (Some [Some location; Some color]) table_data w
     = (Ok (Server.FigureAndStatus
              (choropleth_figure data_frame_cast geojson location color) ""), w)) /\
  (forall error,
     (forall k, error <> KeyError k) ->
     to_json lib selected = Raise error \/
     (exists text, to_json lib selected = Ok text /\ json_loads lib text = Raise error) ->
     Server.display_choropleth lib (Some [Some location; Some color]) table_data w
     = (Raise error, w)).
Proof.
  intros Hdoc Hne Hl Hc Hg Hdt Hcast selected.
  rewrite (view_two_names lib w gdf) by assumption.
  rewrite Hdt. simpl. rewrite Hcast. unfold shapes.
  rewrite getitems_col_of.
  2:{ intros c H. repeat (apply elem_of_cons in H as [->|H]; [assumption|]).
      now apply elem_of_nil in H. }
  subst selected. cbv beta iota zeta delta [rbind map]. split.
  - intros text geojson Ht Hj Hp. now rewrite Ht, Hj, Hp.
  - intros error Hk [Ht|(text & Ht & Hj)]; rewrite Ht; [|rewrite Hj];
      destruct error; try reflexivity; now destruct (Hk key).
Qed.

Lemma view_draws_map_witness :
  (exists fig,
     Server.display_choropleth Sample.library (Some [Some "name"; Some "pop"])
       Sample.countries_grid Sample.loaded_world
     = (Ok (Server.FigureAndStatus fig ""), Sample.loaded_world) /\
     map locations (data fig) = ["name"] /\ map color (data fig) = ["pop"]) /\
  (exists text,
     Server.display_choropleth Sample.library (Some [Some "name"; Some "geometry"])
       Sample.countries_grid Sample.loaded_world
     = (Raise (ValueError text), Sample.loaded_world)).
Proof.
  split.
  - eexists. split.
    + eapply (view_draws_map Sample.library Sample.loaded_world Sample.countries
                Sample.countries_grid "name" "pop").
      * reflexivity.
      * discriminate.
      * apply list_elem_of_In. vm_compute. auto 10.
      * apply list_elem_of_In. vm_compute. auto 10.
      * apply list_elem_of_In. vm_compute. auto 10.
      * vm_compute. reflexivity.
      * vm_compute. reflexivity.
      * vm_compute. reflexivity.
      * vm_compute. reflexivity.
      * vm_compute. reflexivity.
    + split; reflexivity.
  - eexists.
    eapply (view_draws_map Sample.library Sample.loaded_world Sample.countries
              Sample.countries_grid "name" "geometry").
    + reflexivity.
    + discriminate.
    + apply list_elem_of_In. vm_compute. auto 10.
    + apply list_elem_of_In. vm_compute. auto 10.
    + apply list_elem_of_In. vm_compute. auto 10.
    + vm_compute. reflexivity.
    + vm_compute. reflexivity.
    + intros k. discriminate.
    + left. vm_compute. reflexivity.
Defined.

(** X18.  When one of the two chosen names, or "geometry", is not a column
    of the document, the selection of the shapes raises [KeyError], which
    the callback catches: the answer is the idle figure. *)
Theorem view_missing_column_idle (lib : Library) (w : World) (gdf : GeoDataFrame)
  (table_data : list (dict value)) (location color : string)
  (dtypes : gmap string dtype) (data_frame_cast : DataFrame) :
  data_frame (geo_json_obj w) = Some gdf ->
  location <> color ->
  (exists c, c ∈ [color; location; "geometry"] /\ ~ c ∈ columns (frame gdf)) ->
  Utils.dtypes (geo_json_obj w) = Ok dtypes ->
  astype lib (of_records lib table_data) dtypes = Ok data_frame_cast ->
  Server.display_choropleth lib (Some [Some location; Some color]) table_data w
  = (Ok idle, w).
Proof.
  intros Hdoc Hne Hmiss Hdt Hcast.
  rewrite (view_two_names lib w gdf) by assumption.
  rewrite Hdt. simpl. rewrite Hcast. unfold shapes.
  destruct (getitems_missing (frame gdf) _ Hmiss) as (k & _ & _ & ->). reflexivity.
Qed.

Lemma view_missing_column_idle_witness :
  Server.display_choropleth Sample.library (Some [Some "name"; Some "gdp"])
    Sample.countries_grid Sample.loaded_world
  = (Ok idle, Sample.loaded_world).
Proof.
  eapply (view_missing_column_idle Sample.library Sample.loaded_world Sample.countries
            Sample.countries_grid "name" "gdp").
  - reflexivity.
  - discriminate.
  - exists "gdp". split; [left|].
    intros H. apply list_elem_of_In in H. vm_compute in H. intuition discriminate.
  - vm_compute. reflexivity.
  - vm_compute. reflexivity.
Defined.

(** A cast by a mapping one of whose keys is not a column raises
    [KeyError] on such a key, before any cell is cast. *)
Lemma astype_missing_key (lib : Library) (df : DataFrame) (dtypes : gmap string dtype)
  (c : string) :
  is_Some (dtypes !! c) -> ~ c ∈ columns df ->
  exists k, is_Some (dtypes !! k) /\ ~ k ∈ columns df /\
            astype lib df dtypes = Raise (KeyError k).
Proof.
  intros [d Hd] Hc. unfold astype.
  destruct (list_find (λ k, k ∉ columns df) (map fst (map_to_list dtypes)))
    as [[i k]|] eqn:E.
  - apply list_find_Some in E as (Hi & Hk & _).
    exists k. split; [|split; [exact Hk|reflexivity]].
    apply list_elem_of_lookup_2 in Hi. apply list_elem_of_fmap in Hi as ([k' d'] & -> & Hin).
    apply elem_of_map_to_list in Hin. simpl. eauto.
  - apply list_find_None in E. rewrite Forall_forall in E.
    exfalso. apply (E c); [|exact Hc].
    apply list_elem_of_fmap. exists (c, d). split; [reflexivity|].
    now apply elem_of_map_to_list.
Qed.

(** X19.  The cast of the grid comes before the guarded selection of the
    shapes: for a document with distinct column names, when the grid lacks
    one of the document's non-geometry columns (an empty grid lacks them
    all), the view callback does not answer the idle figure but raises
    [KeyError], on a column of the document that the grid lacks. *)
Theorem view_grid_lacks_column (lib : Library) (w : World) (gdf : GeoDataFrame)
  (table_data : list (dict value)) (location color c : string) :
  data_frame (geo_json_obj w) = Some gdf ->
  NoDup (columns (frame gdf)) ->
  location <> color ->
  c ∈ Utils.columns (geo_json_obj w) ->
  ~ c ∈ record_keys table_data ->
  exists k,
    k ∈ Utils.columns (geo_json_obj w) /\ ~ k ∈ record_keys table_data /\
    Server.display_choropleth lib (Some [Some location; Some color]) table_data w
    = (Raise (KeyError k), w).
Proof.
  intros Hdoc _ Hne Hc Hout.
  rewrite (view_two_names lib w gdf) by assumption.
  destruct (dtypes_keys_are_columns_aux (geo_json_obj w) gdf Hdoc) as (m & -> & Hkeys).
  destruct (astype_missing_key lib (of_records lib table_data) m c) as (k & Hk & Hkout & E).
  - now apply Hkeys.
  - now rewrite columns_of_records.
  - exists k. rewrite columns_of_records in Hkout.
    split; [now apply Hkeys|split; [exact Hkout|]]. simpl. now rewrite E.
Qed.

Lemma view_grid_lacks_column_witness :
  exists k,
    Server.display_choropleth Sample.library (Some [Some "name"; Some "pop"]) []
      Sample.loaded_world
    = (Raise (KeyError k), Sample.loaded_world).
Proof.
  destruct (view_grid_lacks_column Sample.library Sample.loaded_world Sample.countries
              [] "name" "pop" "name") as (k & _ & _ & E).
  - reflexivity.
  - exact countries_columns_NoDup.
  - discriminate.
  - apply list_elem_of_In. vm_compute. auto.
  - intros H. now apply elem_of_nil in H.
  - exists k. exact E.
Defined.

(* ===================================================================== *)
(** ** More on the save callback *)
(* ===================================================================== *)

(** X20.  For a document with distinct column names, a save whose grid
    lacks one of the document's non-geometry columns (an empty grid lacks
    them all) raises [KeyError] on such a column and writes nothing: the
    world is left as it was. *)
Theorem save_grid_lacks_column (lib : Library) (w : World) (gdf : GeoDataFrame)
  (table_data : list (dict value)) (table_columns : list TableColumn) (c : string) :
  data_frame (geo_json_obj w) = Some gdf ->
  NoDup (columns (frame gdf)) ->
  c ∈ Utils.columns (geo_json_obj w) ->
  ~ c ∈ record_keys table_data ->
  exists k,
    k ∈ Utils.columns (geo_json_obj w) /\ ~ k ∈ record_keys table_data /\
    Server.save_data lib table_data table_columns w = (Raise (KeyError k), w).
Proof.
  intros Hdoc _ Hc Hout.
  rewrite (save_data_loaded lib w gdf) by exact Hdoc.
  destruct (dtypes_keys_are_columns_aux (geo_json_obj w) gdf Hdoc) as (m & -> & Hkeys).
  destruct (astype_missing_key lib (of_records lib table_data) m c) as (k & Hk & Hkout & E).
  - now apply Hkeys.
  - now rewrite columns_of_records.
  - exists k. rewrite columns_of_records in Hkout.
    split; [now apply Hkeys|split; [exact Hkout|]]. simpl. now rewrite E.
Qed.

Lemma save_grid_lacks_column_witness :
  exists k,
    Server.save_data Sample.library
      [ [("name", VStr "Chile"); ("pop", VInt 19)] ] [] Sample.loaded_world
    = (Raise (KeyError k), Sample.loaded_world).
Proof.
  destruct (save_grid_lacks_column Sample.library Sample.loaded_world Sample.countries
              [ [("name", VStr "Chile"); ("pop", VInt 19)] ] [] "area")
    as (k & _ & _ & E).
  - reflexivity.
  - exact countries_columns_NoDup.
  - apply list_elem_of_In. vm_compute. auto.
  - intros H. apply list_elem_of_In in H. vm_compute in H. intuition discriminate.
  - exists k. exact E.
Defined.

Lemma columns_set_col (cs : list (string * Series)) (c : string) (s : Series) :
  map fst (set_col cs c s)
  = if bool_decide (c ∈ map fst cs) then map fst cs else (map fst cs ++ [c])%list.
Proof.
  induction cs as [|[c' s'] cs IH]; cbn [set_col map fst].
  - rewrite bool_decide_eq_false_2 by apply not_elem_of_nil. reflexivity.
  - destruct (String.eqb_spec c' c) as [->|Hne]; cbn [set_col map fst].
    + rewrite bool_decide_eq_true_2 by left. reflexivity.
    + rewrite IH. case_bool_decide as H.
      * rewrite bool_decide_eq_true_2 by now right. reflexivity.
      * rewrite bool_decide_eq_false_2; [reflexivity|].
        rewrite elem_of_cons. intros [->|H']; [congruence|contradiction].
Qed.

Lemma GeoDataFrame_new_shape (data : DataFrame) (geometry : Series) (c : option string) :
  index (frame (GeoDataFrame_new data geometry c))
    = (if (index data =? 0)%nat then length (values geometry) else index data) /\
  columns (frame (GeoDataFrame_new data geometry c))
    = if bool_decide ("geometry" ∈ columns data) then columns data
      else (columns data ++ ["geometry"])%list.
Proof.
  unfold GeoDataFrame_new, columns.
  destruct (Nat.eqb_spec (index data) 0) as [E|E]; simpl.
  - destruct (length (values geometry)) as [|n] eqn:L; simpl.
    + split; [exact E|apply columns_set_col].
    + split; [reflexivity|]. rewrite columns_set_col, map_map. simpl.
      reflexivity.
  - split; [reflexivity|apply columns_set_col].
Qed.

(** X21.  The dataset a save writes out has one row per row of the grid,
    except that for a grid without rows it takes the rows of the document's
    geometry column; its columns are the keys of the grid in the order in
    which the grid first shows them, followed by "geometry" unless the grid
    has a key of that name, in which case the geometry takes that place. *)
Theorem saved_dataset_shape (lib : Library) (w w' : World) (gdf : GeoDataFrame)
  (table_data : list (dict value)) (table_columns : list TableColumn)
  (payload : Server.Download) :
  data_frame (geo_json_obj w) = Some gdf ->
  Server.save_data lib table_data table_columns w = (Ok payload, w') ->
  exists dataset geometry,
    events w' = (events w ++ [WriteFile dataset])%list /\
    getitem (frame gdf) "geometry" = Ok geometry /\
    index (frame dataset)
    = match table_data with
      | [] => length (values geometry)
      | _ :: _ => length table_data
      end /\
    columns (frame dataset)
    = if bool_decide ("geometry" ∈ record_keys table_data)
      then record_keys table_data
      else (record_keys table_data ++ ["geometry"])%list.
Proof.
  intros Hdoc Hrun. rewrite (save_data_loaded lib w gdf) in Hrun by exact Hdoc.
  destruct (Utils.dtypes (geo_json_obj w)) as [dtypes|e]; simpl in Hrun; [|discriminate].
  destruct (astype lib (of_records lib table_data) dtypes) as [attributes|e] eqn:Hat;
    simpl in Hrun; [|discriminate].
  destruct (getitem (frame gdf) "geometry") as [geometry|e]; simpl in Hrun; [|discriminate].
  injection Hrun as _ <-. simpl.
  apply astype_shape in Hat as [Hi Hc]. rewrite columns_of_records in Hc.
  simpl in Hi.
  destruct (GeoDataFrame_new_shape attributes geometry (crs gdf)) as [Hn Hcols].
  eexists _, geometry. split; [reflexivity|]. split; [reflexivity|]. split.
  - rewrite Hn, Hi. now destruct table_data.
  - now rewrite Hcols, Hc.
Qed.

Lemma saved_dataset_shape_witness :
  exists dataset,
    events (snd (Server.save_data Sample.library edited_grid [] Sample.loaded_world))
      = [WriteFile dataset] /\
    index (frame dataset) = 2 /\
    columns (frame dataset) = ["name"; "pop"; "area"; "geometry"].
Proof.
  destruct (saved_dataset_shape Sample.library Sample.loaded_world _ Sample.countries
              edited_grid [] _ eq_refl eq_refl) as (dataset & geometry & E & _ & Hi & Hc).
  exists dataset. split; [exact E|split; [exact Hi|exact Hc]].
Defined.

(** *** Saving the grid as the edit view shows it *)

Lemma find_col_elem (cs : list (string * Series)) (c : string) (s : Series) :
  find_col cs c = Some s -> (c, s) ∈ cs.
Proof.
  induction cs as [|[c' s'] cs IH]; simpl; [discriminate|].
  destruct (String.eqb_spec c' c) as [->|_].
  - intros [= ->]. left.
  - intros H. right. auto.
Qed.

Lemma find_col_NoDup (cs : list (string * Series)) (c : string) (s : Series) :
  NoDup (map fst cs) -> (c, s) ∈ cs -> find_col cs c = Some s.
Proof.
  induction cs as [|[c' s'] cs IH]; simpl; intros Hnd Hin.
  - now apply elem_of_nil in Hin.
  - apply NoDup_cons in Hnd as [Hc' Hnd].
    apply elem_of_cons in Hin as [[= -> ->]|Hin].
    + now rewrite String.eqb_refl.
    + destruct (String.eqb_spec c' c) as [->|_]; [|auto].
      exfalso. apply Hc'. apply list_elem_of_fmap. now exists (c, s).
Qed.

Lemma find_col_attribute_cols (df : DataFrame) (c : string) :
  c <> "geometry" -> find_col (attribute_cols df) c = find_col (cols df) c.
Proof.
  intros Hc. unfold attribute_cols.
  induction (cols df) as [|[c' s'] cs IH]; simpl; [reflexivity|].
  rewrite filter_cons. simpl. destruct (decide (c' ≠ "geometry")) as [Hc'|Hc']; simpl.
  - now rewrite IH.
  - destruct (String.eqb_spec c' c) as [->|_]; [contradiction|exact IH].
Qed.

Lemma set_col_fresh (cs : list (string * Series)) (c : string) (s : Series) :
  ~ c ∈ map fst cs -> set_col cs c s = (cs ++ [(c, s)])%list.
Proof.
  induction cs as [|[c' s'] cs IH]; simpl; intros H; [reflexivity|].
  apply not_elem_of_cons in H as [Hne H].
  destruct (String.eqb_spec c' c) as [->|_]; [contradiction|].
  now rewrite IH.
Qed.

Section WellFormed.
Variable df : DataFrame.
Hypothesis Hwf : wf_frame df.

Lemma col_of_elem (c : string) (s : Series) : (c, s) ∈ cols df -> col_of df c = s.
Proof.
  intros H. unfold col_of. destruct Hwf as [Hnd _].
  now rewrite (find_col_NoDup (cols df) c s Hnd H).
Qed.

Lemma col_of_in_cols (c : string) : c ∈ columns df -> (c, col_of df c) ∈ cols df.
Proof.
  intros H. unfold col_of.
  destruct (find_col_elem_of (cols df) c H) as [s E]. rewrite E.
  now apply find_col_elem.
Qed.

Lemma col_of_length (c : string) :
  c ∈ columns df -> length (values (col_of df c)) = index df.
Proof.
  intros H. destruct Hwf as [_ Hlen]. rewrite Forall_forall in Hlen.
  apply (Hlen (c, col_of df c)). now apply col_of_in_cols.
Qed.

(** Looking the attribute columns up by name gives them back. *)
Lemma attribute_cols_by_name :
  map (fun c => (c, col_of df c)) (filter (λ c, c ≠ "geometry") (columns df))
  = attribute_cols df.
Proof.
  unfold attribute_cols, columns.
  assert (G : forall sub, (forall x, x ∈ sub -> x ∈ cols df) ->
              map (fun c => (c, col_of df c)) (filter (λ c, c ≠ "geometry") (map fst sub))
              = filter (λ cs, fst cs ≠ "geometry") sub).
  { induction sub as [|[c s] sub IH]; intros Hsub; [reflexivity|].
    simpl. rewrite !filter_cons. simpl.
    destruct (decide (c ≠ "geometry")); simpl.
    - rewrite (col_of_elem c s) by (apply Hsub; left).
      f_equal. apply IH. intros x Hx. apply Hsub. now right.
    - apply IH. intros x Hx. apply Hsub. now right. }
  now apply G.
Qed.

End WellFormed.

Lemma combine_map_pair {A} (f : string -> A) (ks : list string) :
  combine ks (map f ks) = map (fun c => (c, f c)) ks.
Proof. induction ks as [|k ks IH]; simpl; [reflexivity|now rewrite IH]. Qed.

(** A grid all of whose rows have the same distinct keys has these keys. *)
Lemma record_keys_uniform (records : list (dict value)) (ks : list string) :
  NoDup ks -> records <> [] -> (forall r, r ∈ records -> keys r = ks) ->
  record_keys records = ks.
Proof.
  intros Hnd Hne Hall. destruct records as [|r records]; [contradiction|].
  unfold record_keys. simpl. rewrite (Hall r) by left.
  rewrite first_seen_NoDup_app; [|exact Hnd|intros; apply not_elem_of_nil].
  rewrite first_seen_all_seen; [apply app_nil_r|].
  intros k Hk. apply elem_of_concat_keys in Hk as (r' & Hr' & Hk).
  rewrite (Hall r') in Hk by now right.
  rewrite app_nil_r. apply list_elem_of_In. apply in_rev.
  rewrite rev_involutive. now apply list_elem_of_In.
Qed.

Section Unedited.
Variable lib : Library.
Variable gdf : GeoDataFrame.
Hypothesis Hwf : wf_frame (frame gdf).
Hypothesis Hrows : 0 < index (frame gdf).
Hypothesis Hcast : grid_casts_back lib (frame gdf).

Let df := frame gdf.
Let cs := filter (λ c, c ≠ "geometry") (columns df).
Let shown : value -> value := interleave lib (selected_dtypes df cs).

Lemma attribute_names_NoDup : NoDup cs.
Proof. destruct Hwf as [Hnd _]. now apply NoDup_filter. Qed.

Lemma attribute_names_columns (c : string) : c ∈ cs -> c ∈ columns df.
Proof. intros H. now apply non_geometry_columns in H. Qed.

(** The grid of the edit view, row by row. *)
Lemma unedited_grid :
  Utils.dash_data_table_from_dataframe lib {| data_frame := Some gdf |} cs
  = Ok (map (fun i => map (fun c => (c, shown (nth i (values (col_of df c)) VNone))) cs)
            (seq 0 (index df))).
Proof.
  rewrite dash_data_table_loaded by apply attribute_names_columns.
  f_equal. apply map_ext. intros i.
  rewrite of_zip_NoDup by apply attribute_names_NoDup.
  apply (combine_map_pair (fun c => shown (nth i (values (col_of df c)) VNone))).
Qed.

(** The frame pandas makes of that grid: the attribute columns as the grid
    shows them, with the dtypes it infers. *)
Lemma of_records_unedited :
  of_records lib
    (map (fun i => map (fun c => (c, shown (nth i (values (col_of df c)) VNone))) cs)
         (seq 0 (index df)))
  = {| index := index df;
       cols := map (fun k =>
                      (k, {| dtype_of := infer_dtype lib (map shown (values (col_of df k)));
                             values := map shown (values (col_of df k)) |})) cs |}.
Proof.
  unfold of_records. rewrite length_map, length_seq.
  rewrite (record_keys_uniform _ cs).
  - f_equal. apply map_ext_in. intros k Hk. apply list_elem_of_In in Hk.
    assert (E : map (fun r => default VNone (get r k))
                  (map (fun i => map (fun c => (c, shown (nth i (values (col_of df c)) VNone))) cs)
                       (seq 0 (index df)))
                = map shown (values (col_of df k))).
    { rewrite map_map.
      rewrite <- (map_nth_seq (values (col_of df k)) VNone) at 1.
      rewrite (col_of_length df Hwf k) by now apply attribute_names_columns.
      rewrite map_map. apply map_ext. intros i.
      now rewrite (get_map_pair (fun c => shown (nth i (values (col_of df c)) VNone)) cs k Hk). }
    now rewrite E.
  - apply attribute_names_NoDup.
  - destruct (index df) as [|n] eqn:E; [unfold df in E; lia|]. simpl. discriminate.
  - intros r Hr. apply list_elem_of_fmap in Hr as (i & -> & _).
    unfold keys. rewrite map_map. simpl. apply map_id.
Qed.

(** Cast to the document's dtypes, it is the attribute columns of the
    document. *)
Lemma astype_unedited (dtypes : gmap string dtype) :
  (forall c, dtypes !! c = if decide (c ∈ cs)
                           then Some (dtype_of (col_of df c)) else None) ->
  astype lib
    {| index := index df;
       cols := map (fun k =>
                      (k, {| dtype_of := infer_dtype lib (map shown (values (col_of df k)));
                             values := map shown (values (col_of df k)) |})) cs |}
    dtypes
  = Ok {| index := index df; cols := attribute_cols df |}.
Proof.
  intros Hlook. unfold astype.
  assert (Hcols : columns {| index := index df;
                             cols := map (fun k =>
                                            (k, {| dtype_of := infer_dtype lib (map shown (values (col_of df k)));
                                                   values := map shown (values (col_of df k)) |})) cs |}
                  = cs).
  { unfold columns. simpl. rewrite map_map. simpl. apply map_id. }
  rewrite Hcols.
  destruct (list_find (λ k, k ∉ cs) (map fst (map_to_list dtypes))) as [[i k]|] eqn:E.
  - exfalso. apply list_find_Some in E as (Hi & Hk & _).
    apply list_elem_of_lookup_2 in Hi. apply list_elem_of_fmap in Hi as ([k' d] & -> & Hin).
    apply elem_of_map_to_list in Hin. simpl in *. rewrite Hlook in Hin.
    destruct (decide (k' ∈ cs)); [contradiction|discriminate].
  - simpl.
    assert (G : forall sub, (forall k, k ∈ sub -> k ∈ cs) ->
                rmapM (astype_col lib dtypes)
                  (map (fun k =>
                          (k, {| dtype_of := infer_dtype lib (map shown (values (col_of df k)));
                                 values := map shown (values (col_of df k)) |})) sub)
                = Ok (map (fun k => (k, col_of df k)) sub)).
    { induction sub as [|k sub IH]; intros Hsub; [reflexivity|]. simpl.
      unfold astype_col at 1. simpl. rewrite Hlook, decide_True by (apply Hsub; left).
      pose proof (Hcast k (Hsub k ltac:(left))) as Hk. fold df cs in Hk.
      unfold shown. rewrite Hk. simpl.
      fold shown. rewrite IH by (intros; apply Hsub; now right). simpl.
      now destruct (col_of df k). }
    rewrite G by auto. simpl. unfold cs. now rewrite (attribute_cols_by_name df Hwf).
Qed.

End Unedited.

Lemma attribute_cols_no_geometry (df : DataFrame) :
  ~ "geometry" ∈ map fst (attribute_cols df).
Proof.
  intros H. apply list_elem_of_fmap in H as ([c s] & E & Hin).
  apply list_elem_of_filter in Hin as [Hne _]. simpl in *. congruence.
Qed.

Lemma columns_attribute_cols (df : DataFrame) :
  map fst (attribute_cols df) = filter (λ c, c ≠ "geometry") (columns df).
Proof.
  unfold attribute_cols, columns. induction (cols df) as [|[c s] cs IH]; [reflexivity|].
  simpl. rewrite !filter_cons. simpl.
  destruct (decide (c ≠ "geometry")); simpl; now rewrite IH.
Qed.

(** X22.  Saving the grid exactly as the edit view shows it writes the
    document back.  For a document with distinct column names, one cell per
    row in every column, at least one row and a geometry column, and a
    library for which casting what the grid shows of a column to the dtype
    of that column gives the cells of the column back, the dataset written
    has the rows, the reference system and, under every name, the very
    column of the document; its columns are the attribute columns in their
    order, followed by the geometry.  The payload is the text the library
    writes for that dataset under the temporary name of the moment. *)
Theorem save_unedited_grid (lib : Library) (w : World) (gdf : GeoDataFrame)
  (table_data : list (dict value)) (table_columns : list TableColumn) :
  data_frame (geo_json_obj w) = Some gdf ->
  wf_frame (frame gdf) ->
  0 < index (frame gdf) ->
  "geometry" ∈ columns (frame gdf) ->
  grid_casts_back lib (frame gdf) ->
  Utils.dash_data_table_from_dataframe lib (geo_json_obj w)
    (Utils.columns (geo_json_obj w)) = Ok table_data ->
  exists dataset,
    Server.save_data lib table_data table_columns w
    = (content <~ to_file lib (temp_name lib (length (events w))) dataset ;;
       Ok {| Server.content := content;
             Server.filename :=
               "geojsonviewer-" ++ strftime_now lib (S (length (events w)))
               ++ ".geojson" |},
       {| geo_json_obj := geo_json_obj w;
          events := events w ++ [WriteFile dataset] |}) /\
    index (frame dataset) = index (frame gdf) /\
    crs dataset = crs gdf /\
    (forall c, getitem (frame dataset) c = getitem (frame gdf) c) /\
    columns (frame dataset)
    = (filter (λ c, c ≠ "geometry") (columns (frame gdf)) ++ ["geometry"])%list.
Proof.
  intros Hdoc Hwf Hrows Hgeo Hcast Hgrid.
  rewrite (save_data_loaded lib w gdf) by exact Hdoc.
  destruct w as [[d] evs]. simpl in *. subst d.
  unfold Utils.columns in Hgrid. simpl in Hgrid.
  rewrite (unedited_grid lib gdf Hwf) in Hgrid. injection Hgrid as <-.
  destruct (dtypes_loaded gdf) as (m & -> & Hlook). simpl.
  rewrite (of_records_unedited lib gdf Hwf Hrows).
  rewrite (astype_unedited lib gdf Hwf Hcast m Hlook). simpl.
  rewrite getitem_col_of by exact Hgeo. simpl.
  assert (Hnew : GeoDataFrame_new
                   {| index := index (frame gdf); cols := attribute_cols (frame gdf) |}
                   (col_of (frame gdf) "geometry") (crs gdf)
                 = {| frame := {| index := index (frame gdf);
                                  cols := (attribute_cols (frame gdf)
                                           ++ [("geometry", col_of (frame gdf) "geometry")])%list |};
                      crs := crs gdf |}).
  { unfold GeoDataFrame_new, setitem. cbn [index cols].
    destruct (Nat.eqb_spec (index (frame gdf)) 0) as [E|_]; [lia|]. cbn [andb].
    assert (A : reindex_series (index (frame gdf)) (col_of (frame gdf) "geometry")
                = col_of (frame gdf) "geometry").
    { rewrite <- (col_of_length (frame gdf) Hwf "geometry" Hgeo).
      apply reindex_series_all. }
    rewrite A.
    now rewrite set_col_fresh by apply attribute_cols_no_geometry. }
  rewrite Hnew.
  exists {| frame := {| index := index (frame gdf);
                        cols := (attribute_cols (frame gdf)
                                 ++ [("geometry", col_of (frame gdf) "geometry")])%list |};
            crs := crs gdf |}.
  split.
  { rewrite length_app. simpl. now rewrite Nat.add_1_r. }
  cbn [frame index cols crs].
  split; [reflexivity|split; [reflexivity|split]].
  - intros c. unfold getitem. cbn [cols].
    destruct (String.eqb_spec c "geometry") as [->|Hne].
    + assert (E : find_col (attribute_cols (frame gdf) ++ [("geometry", col_of (frame gdf) "geometry")])
                    "geometry" = Some (col_of (frame gdf) "geometry")).
      { rewrite <- (set_col_fresh _ _ _ (attribute_cols_no_geometry (frame gdf))).
        apply find_col_set_col. }
      rewrite E. unfold col_of.
      now destruct (find_col_elem_of (cols (frame gdf)) "geometry" Hgeo) as [s ->].
    + rewrite <- (set_col_fresh _ "geometry" (col_of (frame gdf) "geometry")
                    (attribute_cols_no_geometry (frame gdf))).
      rewrite find_col_set_col_ne by congruence.
      now rewrite find_col_attribute_cols.
  - unfold columns at 1. simpl. rewrite map_app. simpl.
    now rewrite columns_attribute_cols.
Qed.

Lemma save_unedited_grid_witness :
  exists dataset,
    Server.save_data Sample.library Sample.countries_grid [] Sample.loaded_world
    = (Ok {| Server.content :=
               "FeatureCollection /tmp/tmp0.geojson (name,pop,area,geometry)";
             Server.filename := "geojsonviewer-20221001T1211.geojson" |},
       {| geo_json_obj := {| data_frame := Some Sample.countries |};
          events := [WriteFile dataset] |}) /\
    forall c, getitem (frame dataset) c = getitem (frame Sample.countries) c.
Proof.
  destruct (save_unedited_grid Sample.library Sample.loaded_world Sample.countries
              Sample.countries_grid []) as (dataset & E & _ & _ & Hc & Hn).
  - reflexivity.
  - split.
    + unfold columns. simpl.
      repeat (apply NoDup_cons; split;
              [intros H; apply list_elem_of_In in H; simpl in H; intuition discriminate|]).
      apply NoDup_nil_2.
    + repeat constructor.
  - simpl. lia.
  - apply list_elem_of_In. vm_compute. auto 10.
  - intros c Hc. apply list_elem_of_In in Hc. vm_compute in Hc.
    destruct Hc as [<-|[<-|[<-|[]]]]; vm_compute; reflexivity.
  - vm_compute. reflexivity.
  - exists dataset. split; [|exact Hc].
    rewrite E. unfold Sample.library, to_file, Sample.to_file, strftime_now, temp_name.
    rewrite Hn. reflexivity.
Defined.

(* ===================================================================== *)
(** ** More on the upload decoder and on how the callbacks compose *)
(* ===================================================================== *)

Lemma split_prefix (sep : ascii) (prefix rest : string) :
  count sep prefix = 0 ->
  split sep (prefix ++ String sep rest) = prefix :: split sep rest.
Proof.
  induction prefix as [|c prefix IH]; simpl.
  - intros _. now rewrite Ascii.eqb_refl.
  - destruct (Ascii.eqb c sep); simpl; [discriminate|].
    intros H. now rewrite (IH H).
Qed.

(** X23.  The decoder does not look at what precedes the separator: two
    payloads with the same text after the separator decode alike, whatever
    their (separator-free) prefixes, for instance their MIME types. *)
Theorem read_upload_content_ignores_prefix (lib : Library) (prefix1 prefix2 body : string) :
  count "," prefix1 = 0 -> count "," prefix2 = 0 ->
  Utils.read_upload_content lib (prefix1 ++ String "," body)
  = Utils.read_upload_content lib (prefix2 ++ String "," body).
Proof.
  intros H1 H2. unfold Utils.read_upload_content.
  now rewrite !split_prefix by assumption.
Qed.

Lemma read_upload_content_ignores_prefix_witness :
  Utils.read_upload_content Sample.library "data:application/geo+json;base64,Y291bnRyaWVz"
  = Utils.read_upload_content Sample.library "data:text/plain;base64,Y291bnRyaWVz".
Proof.
  apply (read_upload_content_ignores_prefix Sample.library
           "data:application/geo+json;base64" "data:text/plain;base64" "Y291bnRyaWVz");
    reflexivity.
Defined.




(** The temporary file and the clock are those of the moment: in the
    sample, two saves of one grid in a row return payloads that differ in
    their text and in their file name. *)
Example save_twice_other_payload :
  exists payload1 payload2 w1 w2,
    Server.save_data Sample.library Sample.countries_grid [] Sample.loaded_world
      = (Ok payload1, w1) /\
    Server.save_data Sample.library Sample.countries_grid [] w1 = (Ok payload2, w2) /\
    Server.content payload1 <> Server.content payload2 /\
    Server.filename payload1 <> Server.filename payload2.
Proof.
  eexists _, _, _, _. split; [vm_compute; reflexivity|].
  split; [vm_compute; reflexivity|]. split; vm_compute; discriminate.
Qed.



(** X25.  After a load that failed, nothing can be saved or shown until a
    load succeeds: a save is refused with [PreventUpdate] and a view gives
    the idle figure, whatever the grid and the selection the browser still
    holds. *)
Theorem after_failed_load (lib : Library)
  (triggered_id geojson_file upload_content : option string) (w w1 : World) (error : exn)
  (table_data : list (dict value)) (table_columns : list TableColumn)
  (columns : option (list (option string))) :
  geojson_file <> None \/ upload_content <> None ->
  eq_str triggered_id "load-button" = true \/ upload_content <> None ->
  (if eq_str triggered_id "load-button"
   then Utils.load_geojson lib geojson_file None (cleared w)
   else Utils.load_geojson lib None upload_content (cleared w)) = (Raise error, w1) ->
  let w' := snd (Server.create_columns lib triggered_id geojson_file upload_content w) in
  Server.save_data lib table_data table_columns w' = (Raise PreventUpdate, w') /\
  Server.display_choropleth lib columns table_data w' = (Ok idle, w').
Proof.
  intros Hin Hload Hfail w'.
  assert (Hdoc : data_frame (geo_json_obj w') = None).
  { unfold w'. rewrite create_columns_load by assumption.
    destruct (eq_str triggered_id "load-button"); now rewrite Hfail. }
  split.
  - unfold Server.save_data, bind, get_data_frame, raise. now rewrite Hdoc.
  - now apply view_no_document.
Qed.

Lemma after_failed_load_witness :
  let w' := snd (Server.create_columns Sample.library (Some "load-button")
                   (Some "nowhere.geojson") None world_after_load) in
  Server.save_data Sample.library Sample.countries_grid [] w' = (Raise PreventUpdate, w') /\
  Server.display_choropleth Sample.library (Some [Some "name"; Some "pop"])
    Sample.countries_grid w' = (Ok idle, w').
Proof.
  apply (after_failed_load Sample.library (Some "load-button") (Some "nowhere.geojson")
           None world_after_load
           (after_read (cleared world_after_load) (Str "/srv/app/nowhere.geojson"))
           (LibraryError "No such file or directory")).
  - left. discriminate.
  - left. reflexivity.
  - reflexivity.
Defined.

(** X6.  An upload that cannot be decoded never reaches the file reader.
    Fired by anything but the load button, the callback then logs the
    decoder's error and nothing else (no file is read), drops the document,
    clears the URL field and answers with the error status, no column and
    both buttons disabled. *)
Theorem bad_upload_is_not_read (lib : Library) (triggered_id geojson_file : option string)
  (upload_content : string) (error : exn) (w : World) :
  eq_str triggered_id "load-button" = false ->
  Utils.read_upload_content lib upload_content = Raise error ->
  Server.create_columns lib triggered_id geojson_file (Some upload_content) w
  = (Ok {| Server.column1_options := [];
           Server.loading1_children :=
             P "Error: Could not load data content" (Some "load-status") [("color", "red")];
           Server.table_box_children :=
             [ P "Load geojson file in the display tab first" None [("color", "red")];
               Br; DataTable "table" None None false ];
           Server.reset_button_disabled := true;
           Server.save_button_disabled := true;
           Server.geojson_file_value := "";
           Server.graph_box_children :=
             [Graph "graph" (Server._clear_fig None Server.default_text)] |},
     {| geo_json_obj := {| data_frame := None |};
        events := events w ++ [LoggerError error] |}).
Proof.
  intros Ht Hbad. rewrite create_columns_load by (right; discriminate).
  rewrite Ht, (load_geojson_decode_error lib upload_content error) by exact Hbad.
  reflexivity.
Qed.

Lemma bad_upload_is_not_read_witness :
  events (snd (Server.create_columns Sample.library (Some "upload") (Some "countries.geojson")
                 (Some "data:text/plain;base64,aGk=,aGk=") world_after_load))
  = [ ReadFile (Str "/srv/app/countries.geojson");
      LoggerError (ValueError "too many values to unpack (expected 2)") ].
Proof.
  rewrite (bad_upload_is_not_read Sample.library (Some "upload") (Some "countries.geojson")
             "data:text/plain;base64,aGk=,aGk="
             (ValueError "too many values to unpack (expected 2)") world_after_load
             eq_refl eq_refl).
  reflexivity.
Defined.

(** X26.  A load that succeeds makes the dataset read the document: the
    status is empty, the columns offered are the non-geometry columns of
    the dataset, both buttons are enabled and the edit view is the one of
    the dataset.  The URL text is echoed when the load button fired the
    callback, and cleared otherwise. *)
Theorem successful_load (lib : Library)
  (triggered_id geojson_file upload_content : option string) (w w1 : World)
  (df : GeoDataFrame) :
  geojson_file <> None \/ upload_content <> None ->
  eq_str triggered_id "load-button" = true \/ upload_content <> None ->
  (if eq_str triggered_id "load-button"
   then Utils.load_geojson lib geojson_file None (cleared w)
   else Utils.load_geojson lib None upload_content (cleared w)) = (Ok df, w1) ->
  exists viewbox,
    Utils.to_viewbox lib {| data_frame := Some df |} = Ok viewbox /\
    Server.create_columns lib triggered_id geojson_file upload_content w
    = (Ok {| Server.column1_options :=
               filter (λ c, c ≠ "geometry") (columns (frame df));
             Server.loading1_children := P "" (Some "load-status") [("color", "red")];
             Server.table_box_children := viewbox;
             Server.reset_button_disabled := false;
             Server.save_button_disabled := false;
             Server.geojson_file_value :=
               if eq_str triggered_id "load-button" then or_empty geojson_file else "";
             Server.graph_box_children :=
               [Graph "graph" (Server._clear_fig None Server.default_text)] |},
       {| geo_json_obj := {| data_frame := Some df |}; events := events w1 |}).
Proof.
  intros Hin Hload Hok. rewrite create_columns_load by assumption.
  destruct (to_viewbox_Ok lib {| data_frame := Some df |}) as [viewbox Hv].
  exists viewbox. split; [exact Hv|].
  destruct (eq_str triggered_id "load-button"); rewrite Hok;
    unfold after_load, response; rewrite Hv; reflexivity.
Qed.

Lemma successful_load_witness :
  exists out,
    Server.create_columns Sample.library (Some "upload") (Some "typed but not loaded")
      (Some "data:application/geo+json;base64,Y291bnRyaWVz") initial_world
    = (Ok out, {| geo_json_obj := {| data_frame := Some Sample.countries |};
                  events := [ReadFile (StringIO "countries")] |}) /\
    Server.column1_options out = ["name"; "pop"; "area"] /\
    Server.geojson_file_value out = "".
Proof.
  destruct (successful_load Sample.library (Some "upload") (Some "typed but not loaded")
              (Some "data:application/geo+json;base64,Y291bnRyaWVz") initial_world
              (after_read (cleared initial_world) (StringIO "countries")) Sample.countries)
    as (viewbox & _ & E).
  - left. discriminate.
  - right. discriminate.
  - reflexivity.
  - eexists. split; [exact E|]. split; reflexivity.
Defined.
